(** * The market-data refresh job (supabase/functions/refresh-market-data/index.ts)

    A shallow embedding of the edge function and the properties of its
    three parts: the rate-limited fetcher [fetchMarketData], the threshold
    alert evaluator [checkPriceAlerts] and the request handler passed to
    [Deno.serve].

    - JavaScript numbers are IEEE-754 binary64 values: Rocq's primitive
      [float], with the kernel's operations and their [SpecFloat]
      specification.
    - The job is [async] code over a remote store, a remote quote provider
      and a clock.  It is written in a state-and-exception monad [Async]
      over a [World]: the store's tables, the clock, and the trace of the
      job's interactions.  A [throw] keeps the effects that happened
      before it, as in JavaScript.
    - The store applies the writes the job issues (supabase-js reports a
      failed write in its return value, which the job never inspects); the
      two reads whose error the job rethrows can fail.
    - Console output is not part of the model. *)

From Stdlib Require Import Floats ZArith String Ascii.
From stdpp Require Import gmap strings list fin_maps.

Local Open Scope Z_scope.

(** ** JavaScript values *)

Module JS.

(** [ToBoolean] of a number: [+0], [-0] and [NaN] are falsy. *)
Definition truthy (x : float) : bool :=
  negb (PrimFloat.eqb x 0%float) && negb (PrimFloat.is_nan x).

(** [ToBoolean] of a string: only the empty string is falsy. *)
Definition truthy_string (s : string) : bool :=
  match s with
  | EmptyString => false
  | String _ _ => true
  end.

(** [a || b] where [a] is a number, or [undefined]/[null] ([None]). *)
Definition or_else (a : option float) (b : float) : float :=
  match a with
  | Some x => if truthy x then x else b
  | None => b
  end.

(** [a >= b] on numbers: false as soon as one side is [NaN]. *)
Definition ge (a b : float) : bool := PrimFloat.leb b a.

(** [s.replace(pat, rep)] with a string pattern: the first occurrence
    only. *)
Fixpoint replace (pat rep s : string) : string :=
  if String.prefix pat s
  then rep +:+ String.substring (String.length pat)
                 (String.length s - String.length pat)%nat s
  else match s with
       | EmptyString => EmptyString
       | String c r => String c (replace pat rep r)
       end.

(** [[...new Set(l)]]: distinct elements in order of first occurrence. *)
Fixpoint spread_set_from (seen l : list string) : list string :=
  match l with
  | [] => []
  | x :: r =>
      if bool_decide (x ∈ seen) then spread_set_from seen r
      else x :: spread_set_from (x :: seen) r
  end.
Definition spread_set (l : list string) : list string := spread_set_from [] l.

(** [new Map(entries)]: a later entry for a key replaces an earlier one. *)
Definition new_Map (entries : list (string * float)) : gmap string float :=
  foldl (λ m kv, <[kv.1 := kv.2]> m) ∅ entries.

End JS.

(** ** Data: the provider's answer and the store's tables *)

(** [interface MarketDataUpdate] *)
Record MarketDataUpdate := {
  symbol : string;
  price : float;
  change_percent : float;
}.

(** The object under ['Global Quote']; an absent field is [None]. *)
Record GlobalQuote := {
  gq_price : option string;           (* '05. price' *)
  gq_change_percent : option string;  (* '10. change percent' *)
}.

(** What one provider request comes to: [fetch(url)] rejects, or
    [response.json()] rejects, or the body parses to an object whose
    ['Global Quote'] may be absent. *)
Inductive FetchOutcome :=
| FetchRejects (message : string)
| JsonRejects (message : string)
| Json (global_quote : option GlobalQuote).

Record Portfolio := { p_id : string; p_owner_id : string }.
Record Transaction := { t_portfolio_id : string; t_symbol : string }.

(** A [market_data] row; the table is keyed by its unique [symbol]. *)
Record MarketRow := {
  md_price : float;
  md_change_percent : float;
  md_updated_at : Z;
}.

Record HistoricalPrice := {
  hp_symbol : string;
  hp_price : float;
  hp_close_price : float;
  hp_recorded_at : Z;
}.

Record AlertThreshold := {
  at_user_id : string;
  at_symbol : string;
  threshold_percent : float;
}.

Record Notification := {
  n_user_id : string;
  n_symbol : string;
  n_message : string;
  n_type : string;
}.

Record AuditLog := {
  al_user_id : string;
  al_action : string;
  al_resource_type : string;
  al_details_symbols : list string;
  al_details_count : nat;
  al_status_code : Z;
}.

Record Store := {
  portfolios : list Portfolio;
  transactions : list Transaction;
  market_data : gmap string MarketRow;
  historical_prices : list HistoricalPrice;
  alert_thresholds : list AlertThreshold;
  notifications : list Notification;
  audit_logs : list AuditLog;
}.

(** The job's interactions, in order: a request to the provider, a
    suspension ([setTimeout], in ms), a call of the alert evaluator with
    its arguments (it starts with the [alert_thresholds] query). *)
Inductive Event :=
| EvRequest (sym : string)
| EvSleep (ms : Z)
| EvCheckAlerts (userId sym : string) (oldPrice newPrice : float).

Record World := {
  store : Store;
  clock : Z;
  trace : list Event;
}.

Definition with_store (f : Store → Store) (w : World) : World :=
  {| store := f (store w); clock := clock w; trace := trace w |}.

Definition set_market_data (md : gmap string MarketRow) (s : Store) : Store :=
  {| portfolios := portfolios s; transactions := transactions s;
     market_data := md; historical_prices := historical_prices s;
     alert_thresholds := alert_thresholds s;
     notifications := notifications s; audit_logs := audit_logs s |}.

Definition set_historical_prices (h : list HistoricalPrice) (s : Store) : Store :=
  {| portfolios := portfolios s; transactions := transactions s;
     market_data := market_data s; historical_prices := h;
     alert_thresholds := alert_thresholds s;
     notifications := notifications s; audit_logs := audit_logs s |}.

Definition set_notifications (n : list Notification) (s : Store) : Store :=
  {| portfolios := portfolios s; transactions := transactions s;
     market_data := market_data s; historical_prices := historical_prices s;
     alert_thresholds := alert_thresholds s;
     notifications := n; audit_logs := audit_logs s |}.

Definition set_audit_logs (a : list AuditLog) (s : Store) : Store :=
  {| portfolios := portfolios s; transactions := transactions s;
     market_data := market_data s; historical_prices := historical_prices s;
     alert_thresholds := alert_thresholds s;
     notifications := notifications s; audit_logs := a |}.

(** ** The monad of the job: state and exceptions *)

Inductive Completion (A : Type) :=
| Normal (a : A)
| Thrown (message : string).
Arguments Normal {A} a.
Arguments Thrown {A} message.

Definition Async (A : Type) : Type := World → Completion A * World.

#[global] Instance Async_ret : MRet Async := λ A a w, (Normal a, w).
#[global] Instance Async_bind : MBind Async := λ A B f m w,
  match m w with
  | (Normal a, w') => f a w'
  | (Thrown e, w') => (Thrown e, w')
  end.

Definition throw {A} (e : string) : Async A := λ w, (Thrown e, w).

(** [try { body } catch (error) { handler }] *)
Definition try_catch {A} (body : Async A) (handler : string → Async A) : Async A :=
  λ w, match body w with
       | (Normal a, w') => (Normal a, w')
       | (Thrown e, w') => handler e w'
       end.

Definition emit (e : Event) : Async unit :=
  λ w, (Normal tt, {| store := store w; clock := clock w; trace := trace w ++ [e] |}).

Definition read {A} (f : World → A) : Async A := λ w, (Normal (f w), w).

Definition write (f : Store → Store) : Async unit := λ w, (Normal tt, with_store f w).

(** [await new Promise(resolve => setTimeout(resolve, ms))] *)
Definition sleep (ms : Z) : Async unit :=
  λ w, (Normal tt, {| store := store w; clock := clock w + ms;
                      trace := trace w ++ [EvSleep ms] |}).

(** [new Date().toISOString()], as milliseconds on the job's clock. *)
Definition Date_now : Async Z := read clock.

(** ** The job *)

Module Refresh.

Section Job.

(** The JavaScript built-ins the job calls on values of the run. *)
Variable parseFloat : string → float.
Variable toFixed : float → nat → string.

(** The collaborators: the provider's answer to the GLOBAL_QUOTE request
    for a symbol, [supabase.auth.getUser(token)] (the user's id, [None]
    for an error or no user), and the error, if any, of the two reads
    the handler rethrows. *)
Variable provider : string → FetchOutcome.
Variable getUser : string → option string.
Variable portfoliosError : option string.
Variable transactionsError : option string.

(** *** Store queries *)

(** [from('alert_thresholds').select('*').eq('user_id', userId).eq('symbol', symbol)] *)
Definition thresholds_of (userId sym : string) (s : Store) : list AlertThreshold :=
  filter (λ r, at_user_id r = userId ∧ at_symbol r = sym) (alert_thresholds s).

(** [from('portfolios').select('id').eq('owner_id', userId)] *)
Definition select_portfolios (userId : string) : Async (list Portfolio) :=
  match portfoliosError with
  | Some e => throw e
  | None => read (λ w, filter (λ p, p_owner_id p = userId) (portfolios (store w)))
  end.

(** [from('transactions').select('symbol').in('portfolio_id', ids)] *)
Definition select_transactions (ids : list string) : Async (list Transaction) :=
  match transactionsError with
  | Some e => throw e
  | None => read (λ w, filter (λ t, t_portfolio_id t ∈ ids) (transactions (store w)))
  end.

(** [from('market_data').select('symbol, price').in('symbol', symbols)] *)
Definition select_market_data (symbols : list string) : Async (list (string * float)) :=
  read (λ w, omap (λ s, (λ r, (s, md_price r)) <$> market_data (store w) !! s) symbols).

(** [from('market_data').upsert(row, { onConflict: 'symbol' })] *)
Definition upsert_market_data (sym : string) (row : MarketRow) : Async unit :=
  write (λ s, set_market_data (<[sym := row]> (market_data s)) s).

Definition insert_historical_price (row : HistoricalPrice) : Async unit :=
  write (λ s, set_historical_prices (historical_prices s ++ [row]) s).

Definition insert_notification (row : Notification) : Async unit :=
  write (λ s, set_notifications (notifications s ++ [row]) s).

Definition insert_audit_log (row : AuditLog) : Async unit :=
  write (λ s, set_audit_logs (audit_logs s ++ [row]) s).

(** *** fetchMarketData (lines 25-62) *)

(** [await fetch(url)] then [await response.json()]. *)
Definition fetch_json (sym : string) : Async (option GlobalQuote) :=
  emit (EvRequest sym);;
  match provider sym with
  | FetchRejects e => throw e
  | JsonRejects e => throw e
  | Json gq => mret gq
  end.

(** The body of the [try] block for one symbol.  [results] is the array
    so far; the only [push] comes after everything that can throw. *)
Definition fetch_one (sym : string) (results : list MarketDataUpdate)
  : Async (list MarketDataUpdate) :=
  data ← fetch_json sym;
  results' ←
    match data with
    | Some gq =>
        match gq_price gq with
        | Some price05 =>
            if JS.truthy_string price05 then
              let price := parseFloat price05 in
              changePercentStr ←
                match gq_change_percent gq with
                | Some c => mret (JS.replace "%" "" c)
                | None => throw "TypeError: Cannot read properties of undefined (reading 'replace')"
                end;
              let changePercent := parseFloat changePercentStr in
              mret (results ++ [{| symbol := sym; price := price;
                                   change_percent := changePercent |}])
            else mret results
        | None => mret results
        end
    | None => mret results
    end;
  sleep 12000;;
  mret results'.

Fixpoint fetch_loop (symbols : list string) (results : list MarketDataUpdate)
  : Async (list MarketDataUpdate) :=
  match symbols with
  | [] => mret results
  | sym :: rest =>
      results' ← try_catch (fetch_one sym results) (λ _, mret results);
      fetch_loop rest results'
  end.

Definition fetchMarketData (symbols : list string) : Async (list MarketDataUpdate) :=
  fetch_loop symbols [].

(** *** checkPriceAlerts (lines 64-95) *)

Definition changePercent_of (oldPrice newPrice : float) : float :=
  ((newPrice - oldPrice) / oldPrice * 100)%float.

Definition alert_message (sym : string) (oldPrice newPrice : float) : string :=
  sym +:+ " price changed by " +:+ toFixed (changePercent_of oldPrice newPrice) 2
      +:+ "%: $" +:+ toFixed oldPrice 2 +:+ " → $" +:+ toFixed newPrice 2.

Definition checkPriceAlerts (userId sym : string) (oldPrice newPrice : float)
  : Async unit :=
  let changePercent := changePercent_of oldPrice newPrice in
  emit (EvCheckAlerts userId sym oldPrice newPrice);;
  thresholds ← read (λ w, thresholds_of userId sym (store w));
  match thresholds with
  | threshold :: _ =>
      if JS.ge (PrimFloat.abs changePercent) (threshold_percent threshold) then
        insert_notification
          {| n_user_id := userId; n_symbol := sym;
             n_message := alert_message sym oldPrice newPrice;
             n_type := "price_alert" |}
      else mret tt
  | [] => mret tt
  end.

(** *** The handler given to Deno.serve (lines 97-234) *)

Record Request := {
  method : string;
  authorization : option string;   (* req.headers.get('Authorization') *)
}.

Inductive Response :=
| Preflight                                   (* null body, CORS headers *)
| Message (message : string)                  (* 200, { message } *)
| Success (updated : nat) (symbols : list string) (source note : string)
                                              (* 200, { success: true, ... } *)
| Failure (error : string).                   (* 500, { error } *)

(** Lines 173-200: one round per fetched quote. *)
Fixpoint update_loop (userId : string) (currentPrices : gmap string float)
    (marketData : list MarketDataUpdate) : Async unit :=
  match marketData with
  | [] => mret tt
  | data :: rest =>
      let oldPrice := JS.or_else (currentPrices !! symbol data) (price data) in
      now ← Date_now;
      upsert_market_data (symbol data)
        {| md_price := price data; md_change_percent := change_percent data;
           md_updated_at := now |};;
      now' ← Date_now;
      insert_historical_price
        {| hp_symbol := symbol data; hp_price := price data;
           hp_close_price := price data; hp_recorded_at := now' |};;
      checkPriceAlerts userId (symbol data) oldPrice (price data);;
      update_loop userId currentPrices rest
  end.

Definition note_of (updated requested : nat) : string :=
  if (updated <? requested)%nat
  then "Some symbols could not be updated due to API availability"
  else "All symbols updated successfully".

Definition handler (req : Request) : Async Response :=
  if String.eqb (method req) "OPTIONS" then mret Preflight else
  try_catch
    (authHeader ←
       match authorization req with
       | Some h => if JS.truthy_string h then mret h
                   else throw "No authorization header"
       | None => throw "No authorization header"
       end;
     let token := JS.replace "Bearer " "" authHeader in
     userId ←
       match getUser token with
       | Some u => mret u
       | None => throw "Unauthorized"
       end;
     ps ← select_portfolios userId;
     match ps with
     | [] => mret (Message "No portfolios found")
     | _ :: _ =>
         ts ← select_transactions (p_id <$> ps);
         let uniqueSymbols := JS.spread_set (t_symbol <$> ts) in
         match uniqueSymbols with
         | [] => mret (Message "No symbols to update")
         | _ :: _ =>
             currentMarketData ← select_market_data uniqueSymbols;
             let currentPrices := JS.new_Map currentMarketData in
             marketData ← fetchMarketData uniqueSymbols;
             update_loop userId currentPrices marketData;;
             insert_audit_log
               {| al_user_id := userId; al_action := "REFRESH_MARKET_DATA";
                  al_resource_type := "market_data";
                  al_details_symbols := uniqueSymbols;
                  al_details_count := length marketData;
                  al_status_code := 200 |};;
             mret (Success (length marketData) uniqueSymbols
                     "Alpha Vantage (Real-time data)"
                     (note_of (length marketData) (length uniqueSymbols)))
         end
     end)
    (λ e, mret (Failure e)).

(** *** What a run comes to, read off the code above

    These are the closed forms the properties below are stated with; each
    is proved equal to what the code computes. *)

(** The quote [fetch_one] pushes for a symbol, if any: the body has a
    ['Global Quote'] with a non-empty price string and a change-percent
    string. *)
Definition successfully_parsed (sym : string) : option MarketDataUpdate :=
  match provider sym with
  | Json (Some gq) =>
      match gq_price gq, gq_change_percent gq with
      | Some price05, Some c =>
          if JS.truthy_string price05
          then Some {| symbol := sym; price := parseFloat price05;
                       change_percent := parseFloat (JS.replace "%" "" c) |}
          else None
      | _, _ => None
      end
  | _ => None
  end.

(** Whether the [try] block for a symbol runs to its end (nothing throws). *)
Definition completes (sym : string) : bool :=
  match provider sym with
  | FetchRejects _ | JsonRejects _ => false
  | Json (Some gq) =>
      match gq_price gq, gq_change_percent gq with
      | Some price05, None => negb (JS.truthy_string price05)
      | _, _ => true
      end
  | Json None => true
  end.

Definition fetch_events (sym : string) : list Event :=
  if completes sym then [EvRequest sym; EvSleep 12000] else [EvRequest sym].

Definition fetch_delay (sym : string) : Z :=
  if completes sym then 12000 else 0.

Definition after_fetch (symbols : list string) (w : World) : World :=
  {| store := store w;
     clock := clock w + foldr (λ sym acc, fetch_delay sym + acc) 0 symbols;
     trace := trace w ++ flat_map fetch_events symbols |}.

(** Line 174. *)
Definition oldPrice_of (currentPrices : gmap string float) (data : MarketDataUpdate)
  : float :=
  JS.or_else (currentPrices !! symbol data) (price data).

(** The notification, if any, that [checkPriceAlerts] inserts. *)
Definition alert_of (userId sym : string) (oldPrice newPrice : float) (s : Store)
  : list Notification :=
  match thresholds_of userId sym s with
  | threshold :: _ =>
      if JS.ge (PrimFloat.abs (changePercent_of oldPrice newPrice))
               (threshold_percent threshold)
      then [{| n_user_id := userId; n_symbol := sym;
               n_message := alert_message sym oldPrice newPrice;
               n_type := "price_alert" |}]
      else []
  | [] => []
  end.

Definition upserted_row (now : Z) (data : MarketDataUpdate) : MarketRow :=
  {| md_price := price data; md_change_percent := change_percent data;
     md_updated_at := now |}.

Definition history_row (now : Z) (data : MarketDataUpdate) : HistoricalPrice :=
  {| hp_symbol := symbol data; hp_price := price data;
     hp_close_price := price data; hp_recorded_at := now |}.

Definition after_updates (userId : string) (currentPrices : gmap string float)
    (marketData : list MarketDataUpdate) (w : World) : World :=
  let s := store w in
  {| store :=
       {| portfolios := portfolios s; transactions := transactions s;
          market_data :=
            foldl (λ md d, <[symbol d := upserted_row (clock w) d]> md)
                  (market_data s) marketData;
          historical_prices :=
            historical_prices s ++ (history_row (clock w) <$> marketData);
          alert_thresholds := alert_thresholds s;
          notifications :=
            notifications s ++
            flat_map (λ d, alert_of userId (symbol d)
                             (oldPrice_of currentPrices d) (price d) s) marketData;
          audit_logs := audit_logs s |};
     clock := clock w;
     trace := trace w ++
              ((λ d, EvCheckAlerts userId (symbol d)
                       (oldPrice_of currentPrices d) (price d)) <$> marketData) |}.

(** The caller the handler identifies (lines 110-121). *)
Definition caller_of (req : Request) : option string :=
  match authorization req with
  | Some h => if JS.truthy_string h then getUser (JS.replace "Bearer " "" h) else None
  | None => None
  end.

Definition portfolios_of (userId : string) (s : Store) : list Portfolio :=
  filter (λ p, p_owner_id p = userId) (portfolios s).

(** The symbols the handler resolves for a caller (lines 125-148). *)
Definition requested_symbols (userId : string) (s : Store) : list string :=
  JS.spread_set
    (t_symbol <$> filter (λ t, t_portfolio_id t ∈ (p_id <$> portfolios_of userId s))
                    (transactions s)).

(** The [Map] of line 165. *)
Definition currentPrices_of (symbols : list string) (s : Store) : gmap string float :=
  JS.new_Map (omap (λ sym, (λ r, (sym, md_price r)) <$> market_data s !! sym) symbols).

(** The run gets to the fetch phase: a request other than the preflight,
    from an identified caller with a portfolio and a transaction, and no
    read error. *)
Definition ReachesFetch (req : Request) (w : World) (userId : string)
    (uniqueSymbols : list string) : Prop :=
  method req ≠ "OPTIONS" ∧
  caller_of req = Some userId ∧
  portfoliosError = None ∧
  transactionsError = None ∧
  portfolios_of userId (store w) ≠ [] ∧
  uniqueSymbols = requested_symbols userId (store w) ∧
  uniqueSymbols ≠ [].

(** The quotes a run fetches for the symbols it requested. *)
Definition fetched (uniqueSymbols : list string) : list MarketDataUpdate :=
  omap successfully_parsed uniqueSymbols.

Definition audit_entry (userId : string) (uniqueSymbols : list string) : AuditLog :=
  {| al_user_id := userId; al_action := "REFRESH_MARKET_DATA";
     al_resource_type := "market_data";
     al_details_symbols := uniqueSymbols;
     al_details_count := length (fetched uniqueSymbols);
     al_status_code := 200 |}.

(** The world a run that reaches the fetch phase ends in. *)
Definition after_run (userId : string) (uniqueSymbols : list string) (w : World)
  : World :=
  with_store (λ s, set_audit_logs (audit_logs s ++ [audit_entry userId uniqueSymbols]) s)
    (after_updates userId (currentPrices_of uniqueSymbols (store w))
       (fetched uniqueSymbols) (after_fetch uniqueSymbols w)).

Definition success_response (uniqueSymbols : list string) : Response :=
  Success (length (fetched uniqueSymbols)) uniqueSymbols
    "Alpha Vantage (Real-time data)"
    (note_of (length (fetched uniqueSymbols)) (length uniqueSymbols)).

End Job.

End Refresh.

(** ** Sample runs

    Two users hold AAPL; u1 also holds MSFT and GOOG; u3 has no portfolio.
    AAPL and MSFT have a stored quote, GOOG has none. *)

Module Scenario.

Local Open Scope float_scope.

(** [parseFloat] and [toFixed(2)] on the strings and numbers of the runs
    below. *)
Definition parseFloat (s : string) : float :=
  default nan
    (snd ∘ snd <$> list_find (λ kv, kv.1 = s)
       [("105.00", 105); ("150.00", 150); ("5.0000", 5); ("1.5000", 1.5);
        ("0.0000", 0)]%string).

Definition toFixed (x : float) (digits : nat) : string :=
  if PrimFloat.is_nan x then "NaN"
  else default ""
    (snd ∘ snd <$> list_find (λ kv, PrimFloat.eqb kv.1 x = true)
       [(infinity, "Infinity"); (0, "0.00"); (5, "5.00"); (100, "100.00");
        (105, "105.00"); (150, "150.00")]%string).

Definition quote (price05 change : string) : FetchOutcome :=
  Json (Some {| gq_price := Some price05; gq_change_percent := Some change |}).

(** AAPL and GOOG answer with a quote; MSFT answers without a price. *)
Definition provider (sym : string) : FetchOutcome :=
  if String.eqb sym "AAPL" then quote "105.00" "5.0000%"
  else if String.eqb sym "GOOG" then quote "150.00" "1.5000%"
  else if String.eqb sym "MSFT"
       then Json (Some {| gq_price := None; gq_change_percent := None |})
  else Json None.

(** The request for AAPL fails at the network. *)
Definition provider_rejects (sym : string) : FetchOutcome :=
  if String.eqb sym "AAPL" then FetchRejects "network error" else provider sym.

(** GOOG is quoted at a price of zero. *)
Definition provider_zero (sym : string) : FetchOutcome :=
  if String.eqb sym "GOOG" then quote "0.0000" "0.0000%" else Json None.

Definition getUser (token : string) : option string :=
  if String.eqb token "token-u1" then Some "u1"%string
  else if String.eqb token "token-u2" then Some "u2"%string
  else if String.eqb token "token-u3" then Some "u3"%string
  else None.

Definition request (token : string) : Refresh.Request :=
  {| Refresh.method := "POST";
     Refresh.authorization := Some ("Bearer " +:+ token) |}.

Definition threshold (userId sym : string) (percent : float) : AlertThreshold :=
  {| at_user_id := userId; at_symbol := sym; threshold_percent := percent |}.

Definition world (thresholds : list AlertThreshold) : World :=
  {| store :=
       {| portfolios := [ {| p_id := "p1"; p_owner_id := "u1" |};
                          {| p_id := "p2"; p_owner_id := "u2" |} ];
          transactions :=
            [ {| t_portfolio_id := "p1"; t_symbol := "AAPL" |};
              {| t_portfolio_id := "p1"; t_symbol := "MSFT" |};
              {| t_portfolio_id := "p1"; t_symbol := "AAPL" |};
              {| t_portfolio_id := "p1"; t_symbol := "GOOG" |};
              {| t_portfolio_id := "p2"; t_symbol := "AAPL" |} ];
          market_data :=
            <["AAPL"%string := {| md_price := 100; md_change_percent := 0;
                                  md_updated_at := 0 |}]>
            (<["MSFT"%string := {| md_price := 300; md_change_percent := 0.5;
                                   md_updated_at := 0 |}]> ∅);
          historical_prices := [];
          alert_thresholds := thresholds;
          notifications := [];
          audit_logs := [] |};
     clock := 1000;
     trace := [] |}.

(** u1 alerts on AAPL from 5% and on GOOG from 0%; u2 on AAPL from 1%. *)
Definition w0 : World :=
  world [threshold "u1" "AAPL" 5; threshold "u1" "GOOG" 0;
         threshold "u2" "AAPL" 1].

(** The number the literal [5.01] denotes: the nearest binary64 value. *)
#[warnings="-inexact-float"]
Definition five_01 : float := 5.01.

(** The same, with u1's thresholds at 5.01% and 5%. *)
Definition w1 : World :=
  world [threshold "u1" "AAPL" five_01; threshold "u1" "GOOG" 5;
         threshold "u2" "AAPL" 1].

Definition handler : Refresh.Request → Async Refresh.Response :=
  Refresh.handler parseFloat toFixed provider getUser None None.

Definition handler_zero : Refresh.Request → Async Refresh.Response :=
  Refresh.handler parseFloat toFixed provider_zero getUser None None.

End Scenario.

(** ** The caller's side, and what is read off a trace *)

Module Dashboard.


End Dashboard.

(** The symbols requested from the provider, in order. *)
Definition requests_of (tr : list Event) : list string :=
  omap (λ e, match e with EvRequest sym => Some sym | _ => None end) tr.

(** More sample runs: u3 now has a portfolio, without transactions. *)
Module Scenario2.

Definition w_empty_portfolio : World :=
  {| store :=
       {| portfolios := [ {| p_id := "p1"; p_owner_id := "u1" |};
                          {| p_id := "p3"; p_owner_id := "u3" |} ];
          transactions := [ {| t_portfolio_id := "p1"; t_symbol := "AAPL" |} ];
          market_data := ∅;
          historical_prices := [];
          alert_thresholds := [];
          notifications := [];
          audit_logs := [] |};
     clock := 0;
     trace := [] |}.

(** The price of AAPL is not a number; GOOG's change has its sign. *)
Definition provider_garbled (sym : string) : FetchOutcome :=
  if String.eqb sym "AAPL" then Scenario.quote "n/a" "n/a" else Scenario.provider sym.

End Scenario2.

(** ** Properties *)

(** *** Facts of binary64 arithmetic the job relies on *)

Lemma Prim2SF_100 : Prim2SF 100 = S754_finite false 7036874417766400 (-46).
Proof. reflexivity. Qed.

Lemma Prim2SF_0 : Prim2SF 0 = S754_zero false.
Proof. reflexivity. Qed.

(** Turn a goal on primitive floats into one on their specification. *)
Ltac to_spec :=
  unfold JS.ge, Refresh.changePercent_of in *;
  rewrite ?FloatAxioms.leb_spec, ?FloatAxioms.ltb_spec, ?FloatAxioms.eqb_spec,
    ?FloatAxioms.abs_spec, ?FloatAxioms.mul_spec, ?FloatAxioms.div_spec,
    ?FloatAxioms.sub_spec in *;
  rewrite ?Prim2SF_100, ?Prim2SF_0 in *;
  unfold SF64mul, SF64div, SF64sub in *.

Lemma is_zero_spec x :
  PrimFloat.eqb x 0 = true ↔ ∃ s, Prim2SF x = S754_zero s.
Proof.
  to_spec. destruct (Prim2SF x) as [[]|[]| |[] m e]; split;
    try discriminate; eauto; intros [s H]; discriminate.
Qed.

Lemma is_nan_spec x :
  PrimFloat.is_nan x = true ↔ Prim2SF x = S754_nan.
Proof.
  unfold PrimFloat.is_nan. to_spec. unfold SFeqb.
  destruct (Prim2SF x) as [[]|[]| |[] m e]; cbn;
    rewrite ?Z.compare_refl, ?Pos.compare_cont_refl; cbn; split;
    try discriminate; reflexivity.
Qed.

Lemma is_nan_false_spec x :
  PrimFloat.is_nan x = false ↔ Prim2SF x ≠ S754_nan.
Proof.
  rewrite <- is_nan_spec. destruct (PrimFloat.is_nan x); split; congruence.
Qed.

(** [(p - p) / p * 100] is [0], [-0] or [NaN]: never at or above a
    positive threshold. *)
Lemma no_change_below_positive p t :
  PrimFloat.ltb 0 t = true →
  JS.ge (PrimFloat.abs (Refresh.changePercent_of p p)) t = false.
Proof.
  to_spec.
  destruct (Prim2SF t) as [[]|[]| |[] tm te]; try discriminate; intros _;
    destruct (Prim2SF p) as [[]|[]| |[] m e]; cbn [SFsub];
    rewrite ?Z.sub_diag; reflexivity.
Qed.

(** ... but for a finite non-zero price it is a zero, which is at or above
    a threshold of zero. *)
Lemma no_change_reaches_threshold_zero p :
  (∃ s m e, Prim2SF p = S754_finite s m e) →
  JS.ge (PrimFloat.abs (Refresh.changePercent_of p p)) 0 = true.
Proof.
  intros (s & m & e & Hp). to_spec. rewrite Hp.
  destruct s; cbn [SFsub]; rewrite ?Z.sub_diag; reflexivity.
Qed.

(** [0 / 0]: the change from a zero old price to a zero or [NaN] new price
    is [NaN], and [NaN >= t] is false. *)
Lemma change_from_zero_to_zero o n t :
  PrimFloat.eqb o 0 = true →
  PrimFloat.eqb n 0 = true ∨ PrimFloat.is_nan n = true →
  JS.ge (PrimFloat.abs (Refresh.changePercent_of o n)) t = false.
Proof.
  intros [so Ho]%is_zero_spec Hn.
  rewrite is_zero_spec, is_nan_spec in Hn. to_spec. rewrite Ho.
  destruct Hn as [[sn ->]| ->];
    destruct so, (Prim2SF t) as [[]|[]| |[] tm te]; try destruct sn;
    reflexivity.
Qed.

(** [n / 0] for a non-zero [n]: the change from a zero old price is
    infinite, at or above every threshold that is a number. *)
Lemma change_from_zero_is_infinite o n t :
  PrimFloat.eqb o 0 = true →
  PrimFloat.eqb n 0 = false → PrimFloat.is_nan n = false →
  PrimFloat.is_nan t = false →
  JS.ge (PrimFloat.abs (Refresh.changePercent_of o n)) t = true.
Proof.
  intros [so Ho]%is_zero_spec Hn Hnn Ht.
  rewrite is_nan_false_spec in Hnn, Ht.
  assert (∀ s, Prim2SF n ≠ S754_zero s) as Hnz.
  { intros s Hs. enough (PrimFloat.eqb n 0 = true) by congruence.
    apply is_zero_spec. eauto. }
  clear Hn. to_spec. rewrite Ho.
  destruct so, (Prim2SF n) as [sn|[]| |[] m e];
    try congruence; try (by destruct (Hnz sn));
    destruct (Prim2SF t) as [[]|[]| |[] tm te]; try congruence; reflexivity.
Qed.

(** [a || b] is [b] when [a] is missing, zero or [NaN]. *)
Lemma or_else_falsy a b :
  match a with
  | Some x => PrimFloat.eqb x 0 = true ∨ PrimFloat.is_nan x = true
  | None => True
  end →
  JS.or_else a b = b.
Proof.
  destruct a as [x|]; [|reflexivity]. unfold JS.or_else, JS.truthy.
  intros [->| ->]; [reflexivity|]. by rewrite andb_false_r.
Qed.

(** [a || b] is zero only if [b] is. *)
Lemma or_else_zero a b :
  PrimFloat.eqb (JS.or_else a b) 0 = true → PrimFloat.eqb b 0 = true.
Proof.
  destruct a as [x|]; [|done]. unfold JS.or_else, JS.truthy.
  destruct (PrimFloat.eqb x 0) eqn:Hx; [done|].
  destruct (PrimFloat.is_nan x); [done|]. cbn. congruence.
Qed.

Section JobProperties.

Variable parseFloat : string → float.
Variable toFixed : float → nat → string.
Variable provider : string → FetchOutcome.
Variable getUser : string → option string.
Variable portfoliosError : option string.
Variable transactionsError : option string.

Import Refresh.

Local Abbreviation fetch_one := (Refresh.fetch_one parseFloat provider).
Local Abbreviation fetch_loop := (Refresh.fetch_loop parseFloat provider).
Local Abbreviation fetchMarketData := (Refresh.fetchMarketData parseFloat provider).
Local Abbreviation successfully_parsed := (Refresh.successfully_parsed parseFloat provider).
Local Abbreviation completes := (Refresh.completes provider).
Local Abbreviation fetch_events := (Refresh.fetch_events provider).
Local Abbreviation fetch_delay := (Refresh.fetch_delay provider).
Local Abbreviation after_fetch := (Refresh.after_fetch provider).
Local Abbreviation fetched := (Refresh.fetched parseFloat provider).
Local Abbreviation checkPriceAlerts := (Refresh.checkPriceAlerts toFixed).
Local Abbreviation alert_of := (Refresh.alert_of toFixed).
Local Abbreviation update_loop := (Refresh.update_loop toFixed).
Local Abbreviation after_updates := (Refresh.after_updates toFixed).
Local Abbreviation caller_of := (Refresh.caller_of getUser).
Local Abbreviation ReachesFetch := (Refresh.ReachesFetch getUser portfoliosError transactionsError).
Local Abbreviation after_run := (Refresh.after_run parseFloat toFixed provider).
Local Abbreviation success_response := (Refresh.success_response parseFloat provider).
Local Abbreviation audit_entry := (Refresh.audit_entry parseFloat provider).
Local Abbreviation handler :=
  (Refresh.handler parseFloat toFixed provider getUser portfoliosError transactionsError).

(** *** The fetcher *)

Ltac run_async :=
  cbv [mbind mret Async_bind Async_ret try_catch throw emit sleep read write
       Date_now].

(** One round of the loop: the [try] block with its [catch]. *)
Lemma fetch_round sym results w :
  try_catch (fetch_one sym results) (λ _, mret results) w =
  (Normal (results ++ option_list (successfully_parsed sym)),
   {| store := store w; clock := clock w + fetch_delay sym;
      trace := trace w ++ fetch_events sym |}).
Proof.
  unfold Refresh.fetch_one, Refresh.successfully_parsed, Refresh.fetch_delay,
    Refresh.fetch_events, Refresh.completes, Refresh.fetch_json.
  run_async.
  destruct (provider sym) as [e|e|[[[[|a p]|] [c|]]|]]; simpl;
    rewrite ?app_nil_r, ?Z.add_0_r, <- ?app_assoc; reflexivity.
Qed.

Lemma fetch_loop_spec symbols : ∀ results w,
  fetch_loop symbols results w =
  (Normal (results ++ omap successfully_parsed symbols), after_fetch symbols w).
Proof.
  induction symbols as [|sym rest IH]; intros results w.
  - unfold Refresh.after_fetch. simpl. rewrite !app_nil_r, Z.add_0_r.
    destruct w; reflexivity.
  - cbn [Refresh.fetch_loop]. unfold mbind at 1, Async_bind at 1.
    rewrite fetch_round, IH. f_equal.
    + rewrite <- app_assoc. f_equal.
      cbn [omap list_omap]. destruct (successfully_parsed sym); reflexivity.
    + unfold Refresh.after_fetch. cbn [store clock trace foldr flat_map].
      rewrite app_assoc, Z.add_assoc. reflexivity.
Qed.

Lemma fetchMarketData_spec symbols w :
  fetchMarketData symbols w = (Normal (fetched symbols), after_fetch symbols w).
Proof. unfold Refresh.fetchMarketData. apply fetch_loop_spec. Qed.

(** *** The alert evaluator and the update loop *)

Lemma checkPriceAlerts_spec userId sym o n w :
  checkPriceAlerts userId sym o n w =
  (Normal tt,
   {| store := set_notifications
                 (notifications (store w) ++ alert_of userId sym o n (store w))
                 (store w);
      clock := clock w;
      trace := trace w ++ [EvCheckAlerts userId sym o n] |}).
Proof.
  unfold Refresh.checkPriceAlerts, Refresh.alert_of, insert_notification.
  run_async. cbn [store clock trace].
  destruct (thresholds_of userId sym (store w)) as [|th ths].
  - rewrite app_nil_r. destruct w as [[] c t]; reflexivity.
  - destruct (JS.ge _ _).
    + reflexivity.
    + rewrite app_nil_r. destruct w as [[] c t]; reflexivity.
Qed.

Lemma update_loop_spec userId currentPrices marketData : ∀ w,
  update_loop userId currentPrices marketData w =
  (Normal tt, after_updates userId currentPrices marketData w).
Proof.
  induction marketData as [|d rest IH]; intros w.
  - unfold Refresh.after_updates. cbn. rewrite !app_nil_r.
    destruct w as [[] c t]; reflexivity.
  - cbn [Refresh.update_loop]. unfold upsert_market_data, insert_historical_price.
    run_async. rewrite checkPriceAlerts_spec, IH. f_equal.
    destruct w as [[ps ts md hs ths ns als] c t].
    unfold Refresh.after_updates, Refresh.alert_of, thresholds_of, oldPrice_of,
      with_store.
    cbn. rewrite <- !app_assoc. reflexivity.
Qed.

(** *** The handler *)

Lemma handler_reaches_fetch req w userId uniqueSymbols :
  ReachesFetch req w userId uniqueSymbols →
  handler req w = (Normal (success_response uniqueSymbols),
                   after_run userId uniqueSymbols w).
Proof.
  intros (Hm & Hc & Hpe & Hte & Hp & Hs & Hne).
  unfold Refresh.handler.
  apply String.eqb_neq in Hm. rewrite Hm.
  unfold Refresh.caller_of in Hc.
  unfold select_portfolios, select_transactions, select_market_data,
    insert_audit_log.
  rewrite Hpe, Hte.
  destruct (authorization req) as [h|]; [|discriminate].
  destruct (JS.truthy_string h); [|discriminate].
  run_async. rewrite Hc.
  unfold requested_symbols in Hs. unfold portfolios_of in Hp, Hs.
  destruct (filter _ (portfolios (store w))) as [|p ps]; [contradiction|].
  rewrite <- Hs.
  destruct uniqueSymbols as [|sym syms]; [contradiction|].
  rewrite fetchMarketData_spec, update_loop_spec.
  reflexivity.
Qed.

Lemma classic_reaches req w :
  (∃ userId uniqueSymbols, ReachesFetch req w userId uniqueSymbols) ∨
  (∀ userId uniqueSymbols, ¬ ReachesFetch req w userId uniqueSymbols).
Proof.
  unfold Refresh.ReachesFetch.
  destruct (decide (method req = "OPTIONS")) as [Hm|Hm];
    [right; intros u' syms' (?&?&?&?&?&?&?); congruence|].
  destruct (caller_of req) as [u|] eqn:Hc;
    [|right; intros u' syms' (?&?&?&?&?&?&?); congruence].
  destruct portfoliosError as [e|];
    [right; intros u' syms' (?&?&?&?&?&?&?); congruence|].
  destruct transactionsError as [e|];
    [right; intros u' syms' (?&?&?&?&?&?&?); congruence|].
  destruct (portfolios_of u (store w)) as [|p ps] eqn:Hp.
  { right. intros u' syms' (?&[= <-]&?&?&?&?&?). congruence. }
  destruct (requested_symbols u (store w)) as [|sym syms] eqn:Hs.
  { right. intros u' syms' (?&[= <-]&?&?&?&?&?). congruence. }
  left. exists u, (sym :: syms). rewrite Hp, Hs. done.
Qed.

(** Every other run answers without touching the world, and never with
    the success body. *)
Lemma handler_otherwise req w :
  (∀ userId uniqueSymbols, ¬ ReachesFetch req w userId uniqueSymbols) →
  ∃ r, handler req w = (Normal r, w) ∧
       match r with Success _ _ _ _ => False | _ => True end.
Proof.
  intros Hno. unfold Refresh.handler.
  destruct (String.eqb (method req) "OPTIONS") eqn:Hm; [by eexists|].
  apply String.eqb_neq in Hm.
  unfold select_portfolios, select_transactions.
  pose proof (Hno' := λ u, Hno u (requested_symbols u (store w))).
  unfold Refresh.ReachesFetch, Refresh.caller_of, requested_symbols, portfolios_of
    in Hno'.
  destruct (authorization req) as [h|]; [|by eexists].
  destruct (JS.truthy_string h); [|by eexists].
  run_async.
  destruct (getUser _) as [u|]; [|by eexists].
  specialize (Hno' u).
  destruct portfoliosError as [e|]; [by eexists|].
  run_async.
  destruct (filter _ (portfolios (store w))) as [|p ps]; [by eexists|].
  destruct transactionsError as [e|]; [by eexists|].
  run_async.
  destruct (JS.spread_set _) as [|sym syms]; [by eexists|].
  exfalso. apply Hno'. repeat split; congruence.
Qed.

(** *** What is fetched *)

Lemma successfully_parsed_symbol sym d :
  successfully_parsed sym = Some d → symbol d = sym.
Proof.
  unfold Refresh.successfully_parsed.
  destruct (provider sym) as [e|e|[[[p|] [c|]]|]]; cbn; try discriminate.
  destruct (JS.truthy_string p); [|discriminate].
  intros [= <-]. reflexivity.
Qed.

Lemma elem_of_fetched symbols d :
  d ∈ fetched symbols ↔ symbol d ∈ symbols ∧ successfully_parsed (symbol d) = Some d.
Proof.
  unfold Refresh.fetched. rewrite list_elem_of_omap. split.
  - intros (sym & Hin & Hp).
    pose proof (successfully_parsed_symbol _ _ Hp) as ->. done.
  - intros [Hin Hp]. eauto.
Qed.

(** A request-level error and a body without a usable price are not parsed. *)
Lemma failed_fetch_not_parsed sym :
  match provider sym with
  | FetchRejects _ | JsonRejects _ | Json None => successfully_parsed sym = None
  | Json (Some gq) =>
      (gq_price gq = None ∨ gq_price gq = Some "" ∨ gq_change_percent gq = None) →
      successfully_parsed sym = None
  end.
Proof.
  unfold Refresh.successfully_parsed.
  destruct (provider sym) as [e|e|[[[[|a p]|] [c|]]|]]; try reflexivity.
  simpl. intros [|[|]]; discriminate.
Qed.

(** *** The upserts of a run *)

Lemma lookup_upserts_ne now (ds : list MarketDataUpdate) S : ∀ md : gmap string MarketRow,
  (∀ d, d ∈ ds → symbol d ≠ S) →
  foldl (λ md d, <[symbol d := upserted_row now d]> md) md ds !! S = md !! S.
Proof.
  induction ds as [|d ds IH]; intros md Hne; [reflexivity|].
  cbn [foldl]. rewrite IH.
  - apply lookup_insert_ne, Hne, elem_of_cons. by left.
  - intros d' Hd'. apply Hne, elem_of_cons. by right.
Qed.

Lemma lookup_upserts_eq now (ds : list MarketDataUpdate) S q :
  ∀ md : gmap string MarketRow,
  q ∈ ds → symbol q = S →
  (∀ d, d ∈ ds → symbol d = S → d = q) →
  foldl (λ md d, <[symbol d := upserted_row now d]> md) md ds !! S =
  Some (upserted_row now q).
Proof.
  induction ds as [|d ds IH]; intros md Hin Hq Huniq.
  - by apply elem_of_nil in Hin.
  - cbn [foldl]. destruct (decide (S ∈ symbol <$> ds)) as [Hds|Hds].
    + apply list_elem_of_fmap in Hds as (d' & Hs & Hd').
      assert (d' = q) as -> by (apply Huniq; [apply elem_of_cons; by right|done]).
      apply IH; [done..|]. intros d'' Hd''. apply Huniq, elem_of_cons. by right.
    + assert (q ∉ ds) as Hq'.
      { intros Hq'. apply Hds, list_elem_of_fmap. eauto. }
      apply elem_of_cons in Hin as [->|]; [|done].
      rewrite lookup_upserts_ne.
      * rewrite Hq. apply lookup_insert_eq.
      * intros d' Hd' Hs. apply Hds, list_elem_of_fmap. eauto.
Qed.

(** C1 (frame): a symbol whose fetch fails or brings no usable data has
    its [market_data] row left as it was by the whole run, whatever the
    request and the store; a requested symbol with a parsed quote ends
    with exactly the row the run upserts (new price, change percent and
    timestamp). *)
Theorem failed_fetch_keeps_quote_row req w S :
  let w' := (handler req w).2 in
  (successfully_parsed S = None →
   market_data (store w') !! S = market_data (store w) !! S) ∧
  (∀ userId uniqueSymbols q,
     ReachesFetch req w userId uniqueSymbols →
     S ∈ uniqueSymbols →
     successfully_parsed S = Some q →
     market_data (store w') !! S =
     Some {| md_price := price q; md_change_percent := change_percent q;
             md_updated_at := clock w' |}).
Proof.
  cbn zeta. split.
  - intros Hfail.
    destruct (classic_reaches req w) as [(u & syms & Hr)|Hno].
    + rewrite (handler_reaches_fetch _ _ _ _ Hr). cbn.
      apply lookup_upserts_ne. intros d [_ Hd]%elem_of_fetched Hs.
      rewrite Hs in Hd. congruence.
    + destruct (handler_otherwise _ _ Hno) as (r & -> & _). reflexivity.
  - intros u syms q Hr Hin Hq.
    rewrite (handler_reaches_fetch _ _ _ _ Hr). cbn.
    pose proof (successfully_parsed_symbol _ _ Hq) as Hs.
    apply (lookup_upserts_eq _ _ S q); [|done|].
    + apply elem_of_fetched. rewrite Hs. done.
    + intros d [_ Hd]%elem_of_fetched Hds. rewrite Hds in Hd. congruence.
Qed.

(** C2 (error handling): whatever the symbols and whatever the provider
    answers for each of them, [fetchMarketData] completes normally and
    returns the parsed quotes of the symbols that have one, in input
    order, and nothing for the others; a failed symbol in the middle
    leaves the quotes of the symbols after it in the result. *)
Theorem fetchMarketData_returns_parsed_quotes symbols w :
  (fetchMarketData symbols w).1 = Normal (omap successfully_parsed symbols) ∧
  ∀ before failed after,
    symbols = before ++ failed :: after →
    successfully_parsed failed = None →
    (fetchMarketData symbols w).1 =
    Normal (omap successfully_parsed before ++ omap successfully_parsed after).
Proof.
  rewrite fetchMarketData_spec. split; [reflexivity|].
  intros before failed after -> Hfail. cbn [fst]. unfold Refresh.fetched.
  rewrite omap_app. cbn. rewrite Hfail. reflexivity.
Qed.

(** The trace of a fetch: per symbol, the request, then the delay when
    nothing threw. *)
Lemma fetchMarketData_trace symbols w :
  trace (fetchMarketData symbols w).2 = trace w ++ flat_map fetch_events symbols.
Proof. rewrite fetchMarketData_spec. reflexivity. Qed.

(** When no request throws, every request is followed by the 12 s delay. *)
Lemma fetchMarketData_paced symbols w :
  (∀ sym, sym ∈ symbols → completes sym = true) →
  trace (fetchMarketData symbols w).2 =
  trace w ++ flat_map (λ sym, [EvRequest sym; EvSleep 12000]) symbols.
Proof.
  intros Hc. rewrite fetchMarketData_trace. f_equal.
  induction symbols as [|sym rest IH]; [reflexivity|].
  cbn [flat_map]. rewrite IH.
  - unfold Refresh.fetch_events. rewrite Hc; [reflexivity|]. apply elem_of_cons; by left.
  - intros sym' Hin. apply Hc, elem_of_cons. by right.
Qed.

(** A request that throws is followed at once by the next request. *)
Lemma fetchMarketData_not_paced sym next w :
  completes sym = false →
  trace (fetchMarketData [sym; next] w).2 =
  trace w ++ EvRequest sym :: EvRequest next :: (if completes next then [EvSleep 12000] else []).
Proof.
  intros Hc. rewrite fetchMarketData_trace. cbn [flat_map].
  unfold Refresh.fetch_events. rewrite Hc. by destruct (completes next).
Qed.

(** *** The previous prices *)

Lemma new_Map_lookup (s : Store) S symbols : ∀ m0 : gmap string float,
  foldl (λ m kv, <[kv.1 := kv.2]> m) m0
    (omap (λ sym, (λ r, (sym, md_price r)) <$> market_data s !! sym) symbols) !! S =
  match (if bool_decide (S ∈ symbols) then market_data s !! S else None) with
  | Some r => Some (md_price r)
  | None => m0 !! S
  end.
Proof.
  induction symbols as [|sym rest IH]; intros m0.
  - rewrite bool_decide_eq_false_2 by apply not_elem_of_nil. reflexivity.
  - cbn [omap list_omap].
    assert (∀ m1 : gmap string float,
      (S = sym → market_data s !! sym = None → m1 !! S = m0 !! S) →
      (S = sym → ∀ r, market_data s !! sym = Some r → m1 !! S = Some (md_price r)) →
      (S ≠ sym → m1 !! S = m0 !! S) →
      match (if bool_decide (S ∈ rest) then market_data s !! S else None) with
      | Some r => Some (md_price r)
      | None => m1 !! S
      end =
      match (if bool_decide (S ∈ sym :: rest) then market_data s !! S else None) with
      | Some r => Some (md_price r)
      | None => m0 !! S
      end) as Hstep.
    { intros m1 H1 H2 H3.
      destruct (decide (S = sym)) as [->|Hne].
      - rewrite (bool_decide_eq_true_2 (sym ∈ sym :: rest)) by (apply elem_of_cons; by left).
        destruct (market_data s !! sym) as [r|] eqn:Hr.
        + case_bool_decide; [done|]. by apply H2.
        + case_bool_decide; by apply H1.
      - rewrite H3 by done.
        destruct (decide (S ∈ rest)) as [Hin|Hin].
        + rewrite !bool_decide_eq_true_2; [done| |done]. apply elem_of_cons; by right.
        + rewrite !bool_decide_eq_false_2; [done| |done].
          intros [?|?]%elem_of_cons; done. }
    destruct (market_data s !! sym) as [r|] eqn:Hr; cbn [fmap option_fmap option_map foldl].
    + rewrite IH. apply Hstep; cbn [fst snd].
      * done.
      * intros -> r' [= <-]. apply lookup_insert_eq.
      * intros Hne. by apply lookup_insert_ne.
    + rewrite IH. apply Hstep; done.
Qed.

Lemma currentPrices_lookup symbols (s : Store) S :
  currentPrices_of symbols s !! S =
  if bool_decide (S ∈ symbols) then md_price <$> market_data s !! S else None.
Proof.
  unfold currentPrices_of, JS.new_Map. rewrite new_Map_lookup.
  case_bool_decide; [|apply lookup_empty].
  destruct (market_data s !! S); [reflexivity|apply lookup_empty].
Qed.

(** *** What a run that reaches the fetch phase leaves behind *)

Local Abbreviation check_of userId uniqueSymbols w :=
  (λ d, EvCheckAlerts userId (symbol d)
          (oldPrice_of (currentPrices_of uniqueSymbols (store w)) d) (price d)).

Local Abbreviation alerts_of userId uniqueSymbols w :=
  (λ d, alert_of userId (symbol d)
          (oldPrice_of (currentPrices_of uniqueSymbols (store w)) d) (price d)
          (store w)).

Lemma run_notifications req w userId uniqueSymbols :
  ReachesFetch req w userId uniqueSymbols →
  notifications (store (handler req w).2) =
  notifications (store w) ++
  flat_map (alerts_of userId uniqueSymbols w) (fetched uniqueSymbols).
Proof. intros Hr. rewrite (handler_reaches_fetch _ _ _ _ Hr). reflexivity. Qed.

Lemma run_trace req w userId uniqueSymbols :
  ReachesFetch req w userId uniqueSymbols →
  trace (handler req w).2 =
  trace w ++ flat_map fetch_events uniqueSymbols ++
  (check_of userId uniqueSymbols w <$> fetched uniqueSymbols).
Proof.
  intros Hr. rewrite (handler_reaches_fetch _ _ _ _ Hr). cbn.
  by rewrite <- app_assoc.
Qed.

Lemma run_audit_logs req w userId uniqueSymbols :
  ReachesFetch req w userId uniqueSymbols →
  audit_logs (store (handler req w).2) =
  audit_logs (store w) ++ [audit_entry userId uniqueSymbols].
Proof. intros Hr. rewrite (handler_reaches_fetch _ _ _ _ Hr). reflexivity. Qed.

Lemma elem_of_alert_of n userId sym o p s :
  n ∈ alert_of userId sym o p s →
  n_user_id n = userId ∧ n_symbol n = sym ∧
  ∃ th ths, thresholds_of userId sym s = th :: ths ∧
            JS.ge (PrimFloat.abs (changePercent_of o p)) (threshold_percent th) = true.
Proof.
  unfold Refresh.alert_of.
  destruct (thresholds_of userId sym s) as [|th ths]; [by intros ?%elem_of_nil|].
  destruct (JS.ge _ _) eqn:Hge; [|by intros ?%elem_of_nil].
  intros ->%list_elem_of_singleton. eauto 6.
Qed.

Lemma elem_of_flat_map {A B} (f : A → list B) (l : list A) (y : B) :
  y ∈ flat_map f l ↔ ∃ x, x ∈ l ∧ y ∈ f x.
Proof.
  rewrite list_elem_of_In, in_flat_map.
  split; intros (x & Hx & Hy); exists x; split; by apply list_elem_of_In.
Qed.

(** *** The claims on alerts *)

(** C4, as the code has it (first observation): when the symbol has no
    [market_data] row before the run and the caller's thresholds for it
    are positive, the run adds no notification for that symbol: the old
    price is the new price, and the change is 0 or NaN. *)
Theorem first_observation_no_alert req w userId uniqueSymbols S :
  ReachesFetch req w userId uniqueSymbols →
  market_data (store w) !! S = None →
  (∀ th, th ∈ thresholds_of userId S (store w) →
         PrimFloat.ltb 0 (threshold_percent th) = true) →
  ∃ added,
    notifications (store (handler req w).2) = notifications (store w) ++ added ∧
    ∀ n, n ∈ added → n_symbol n ≠ S.
Proof.
  intros Hr Hnone Hpos. eexists. split; [by apply run_notifications|].
  intros n (d & Hd & Hn)%elem_of_flat_map HS.
  apply elem_of_alert_of in Hn as (_ & Hsym & th & ths & Hth & Hge).
  rewrite HS in Hsym. subst S.
  unfold oldPrice_of in Hge. rewrite currentPrices_lookup, Hnone in Hge.
  rewrite or_else_falsy in Hge by (by case_bool_decide).
  rewrite no_change_below_positive in Hge; [done|].
  apply Hpos. rewrite Hth. apply elem_of_cons. by left.
Qed.

(** C5 (threshold boundary): from 100.00 to 105.00 the change is exactly
    5, and the comparison is [>=]: a first threshold row of 5 gets its
    notification, one of 5.01 gets none. *)
#[warnings="-inexact-float"]
Theorem threshold_boundary_inclusive userId sym w th ths :
  thresholds_of userId sym (store w) = th :: ths →
  let w' := (checkPriceAlerts userId sym 100 105 w).2 in
  changePercent_of 100 105 = 5%float ∧
  (threshold_percent th = 5%float →
   notifications (store w') =
   notifications (store w) ++
   [{| n_user_id := userId; n_symbol := sym;
       n_message := alert_message toFixed sym 100 105;
       n_type := "price_alert" |}]) ∧
  (threshold_percent th = 5.01%float →
   notifications (store w') = notifications (store w)).
Proof.
  intros Hth. cbn zeta. rewrite checkPriceAlerts_spec. cbn.
  unfold Refresh.alert_of. rewrite Hth.
  split; [reflexivity|]. split; intros ->; cbn; [reflexivity|apply app_nil_r].
Qed.

(** C6, as the code has it (zero old price): the evaluator has no guard
    of its own.  With old price 0 it notifies nobody when the new price is
    0 or NaN (the change is NaN), and it does notify, on an infinite
    change, when the new price is any other number and the first
    threshold row holds a number. *)
Theorem zero_old_price_is_not_guarded userId sym w newPrice oldPrice :
  PrimFloat.eqb oldPrice 0 = true →
  let w' := (checkPriceAlerts userId sym oldPrice newPrice w).2 in
  (PrimFloat.eqb newPrice 0 = true ∨ PrimFloat.is_nan newPrice = true →
   notifications (store w') = notifications (store w)) ∧
  (∀ th ths,
     thresholds_of userId sym (store w) = th :: ths →
     PrimFloat.eqb newPrice 0 = false →
     PrimFloat.is_nan newPrice = false →
     PrimFloat.is_nan (threshold_percent th) = false →
     notifications (store w') =
     notifications (store w) ++
     [{| n_user_id := userId; n_symbol := sym;
         n_message := alert_message toFixed sym oldPrice newPrice;
         n_type := "price_alert" |}]).
Proof.
  intros Hold. cbn zeta. rewrite checkPriceAlerts_spec. cbn.
  unfold Refresh.alert_of. split.
  - intros Hnew. destruct (thresholds_of _ _ _); [apply app_nil_r|].
    rewrite change_from_zero_to_zero by done. apply app_nil_r.
  - intros th ths -> Hn Hnn Ht.
    rewrite change_from_zero_is_infinite by done. reflexivity.
Qed.

(** *** The claims on the audit entry and the response *)

(** C7, as the code has it (audit entry): a run answers with the success
    body exactly when it reached the fetch phase, and then it has appended
    one audit entry, with the requested symbols, the number of fetched
    quotes and status 200; every other answer, the two early 200 answers
    for a caller without portfolios or without symbols among them, leaves
    [audit_logs] as it was. *)
Theorem audit_entry_for_fetching_runs req w :
  let w' := (handler req w).2 in
  match (handler req w).1 with
  | Normal (Success updated symbols _ _) =>
      ∃ userId,
        ReachesFetch req w userId symbols ∧
        updated = length (fetched symbols) ∧
        audit_logs (store w') =
        audit_logs (store w) ++
        [{| al_user_id := userId; al_action := "REFRESH_MARKET_DATA";
            al_resource_type := "market_data";
            al_details_symbols := symbols;
            al_details_count := updated;
            al_status_code := 200 |}]
  | _ =>
      (∀ userId symbols, ¬ ReachesFetch req w userId symbols) ∧
      audit_logs (store w') = audit_logs (store w)
  end.
Proof.
  cbn zeta. destruct (classic_reaches req w) as [(u & syms & Hr)|Hno].
  - rewrite (handler_reaches_fetch _ _ _ _ Hr). cbn. exists u. done.
  - destruct (handler_otherwise _ _ Hno) as (r & -> & Hr). cbn.
    destruct r; done.
Qed.

(** C8 (response): a run that reaches the fetch phase answers with the
    number of fetched quotes as [updated], the requested symbols as
    [symbols], and the note that says some symbols could not be updated
    exactly when fewer quotes were fetched than symbols requested. *)
Theorem response_reports_updates req w userId uniqueSymbols :
  ReachesFetch req w userId uniqueSymbols →
  let updated := length (omap successfully_parsed uniqueSymbols) in
  (fetchMarketData uniqueSymbols w).1 = Normal (omap successfully_parsed uniqueSymbols) ∧
  (handler req w).1 =
  Normal (Success updated uniqueSymbols "Alpha Vantage (Real-time data)"
            (if bool_decide (updated < length uniqueSymbols)%nat
             then "Some symbols could not be updated due to API availability"
             else "All symbols updated successfully")).
Proof.
  intros Hr. cbn zeta. rewrite fetchMarketData_spec.
  rewrite (handler_reaches_fetch _ _ _ _ Hr). split; [reflexivity|]. cbn.
  unfold Refresh.success_response, note_of, Refresh.fetched.
  case_bool_decide as Hlt.
  - apply Nat.ltb_lt in Hlt. by rewrite Hlt.
  - apply Nat.ltb_nlt in Hlt. by rewrite Hlt.
Qed.

(** C9, as the code has it (who is evaluated): a run calls the alert
    evaluator once per fetched quote, in order, each time for the caller;
    every notification it adds is the caller's.  Other owners of the same
    symbol are neither evaluated nor notified by this run. *)
Theorem alerts_are_for_the_caller req w userId uniqueSymbols :
  ReachesFetch req w userId uniqueSymbols →
  let w' := (handler req w).2 in
  trace w' =
  trace w ++ flat_map fetch_events uniqueSymbols ++
  ((λ d, EvCheckAlerts userId (symbol d)
           (oldPrice_of (currentPrices_of uniqueSymbols (store w)) d) (price d))
   <$> omap successfully_parsed uniqueSymbols) ∧
  ∃ added,
    notifications (store w') = notifications (store w) ++ added ∧
    ∀ n, n ∈ added → n_user_id n = userId.
Proof.
  intros Hr. cbn zeta. split; [by apply run_trace|].
  eexists. split; [by apply run_notifications|].
  intros n (d & Hd & Hn)%elem_of_flat_map.
  by apply elem_of_alert_of in Hn as (-> & _).
Qed.

(** C10, as the code has it (zero stored price): for each quote a run
    fetches, the evaluator is called with the old price of line 174; a
    stored price that is missing or zero makes that old price the new
    price; the old price is zero only if the fetched price is zero too,
    and then nobody is notified (the change is 0/0, NaN). *)
Theorem zero_stored_price_is_replaced req w userId uniqueSymbols d :
  ReachesFetch req w userId uniqueSymbols →
  d ∈ omap successfully_parsed uniqueSymbols →
  let oldPrice := oldPrice_of (currentPrices_of uniqueSymbols (store w)) d in
  EvCheckAlerts userId (symbol d) oldPrice (price d) ∈ trace (handler req w).2 ∧
  ((∀ r, market_data (store w) !! symbol d = Some r →
         PrimFloat.eqb (md_price r) 0 = true) →
   oldPrice = price d) ∧
  (PrimFloat.eqb oldPrice 0 = true →
   PrimFloat.eqb (price d) 0 = true ∧
   alert_of userId (symbol d) oldPrice (price d) (store w) = []).
Proof.
  intros Hr Hd. cbn zeta. split; [|split].
  - rewrite (run_trace _ _ _ _ Hr). rewrite !elem_of_app. right. right.
    apply list_elem_of_fmap. eauto.
  - intros Hzero. unfold oldPrice_of. apply or_else_falsy.
    rewrite currentPrices_lookup. case_bool_decide; [|done].
    destruct (market_data (store w) !! symbol d) as [r|]; [|done].
    left. by apply Hzero.
  - intros Hold. pose proof (or_else_zero _ _ Hold) as Hnew. split; [done|].
    unfold Refresh.alert_of. destruct (thresholds_of _ _ _); [done|].
    rewrite change_from_zero_to_zero; [done..|]. by left.
Qed.

End JobProperties.

(** ** The sample runs, checked *)

Module Checked.

Import Refresh Scenario.

Local Open Scope float_scope.
Local Open Scope string_scope.
Local Open Scope list_scope.

Local Abbreviation u1_request := (request "token-u1").

(** u1's request reaches the fetch phase with AAPL, MSFT and GOOG. *)
Lemma u1_reaches_fetch thresholds :
  ReachesFetch getUser None None u1_request (world thresholds) "u1"
    ["AAPL"; "MSFT"; "GOOG"].
Proof. repeat split; try done; vm_compute; done. Qed.

(** In u1's run MSFT brings no price and keeps its row; AAPL gets the
    fetched one. *)
Lemma failed_fetch_keeps_quote_row_witness :
  market_data (store (handler u1_request w0).2) !! "MSFT" =
  market_data (store w0) !! "MSFT" ∧
  market_data (store (handler u1_request w0).2) !! "AAPL" =
  Some {| md_price := 105; md_change_percent := 5; md_updated_at := 37000 |}.
Proof.
  pose proof (failed_fetch_keeps_quote_row parseFloat toFixed provider getUser
                None None u1_request w0) as H.
  split.
  - apply (proj1 (H "MSFT")). reflexivity.
  - apply (proj2 (H "AAPL") "u1" ["AAPL"; "MSFT"; "GOOG"]
             {| symbol := "AAPL"; price := 105; change_percent := 5 |}).
    + apply u1_reaches_fetch.
    + apply elem_of_cons. by left.
    + reflexivity.
Defined.

(** MSFT fails between AAPL and GOOG; both quotes are returned, in order. *)
Lemma fetchMarketData_returns_parsed_quotes_witness :
  (fetchMarketData parseFloat provider ["AAPL"; "MSFT"; "GOOG"] w0).1 =
  Normal [ {| symbol := "AAPL"; price := 105; change_percent := 5 |};
           {| symbol := "GOOG"; price := 150; change_percent := 1.5 |} ].
Proof.
  apply (proj2 (fetchMarketData_returns_parsed_quotes parseFloat provider
                  ["AAPL"; "MSFT"; "GOOG"] w0) ["AAPL"] "MSFT" ["GOOG"]);
    reflexivity.
Defined.

(** C3, at the failing input: the request for AAPL is rejected, and the
    request for GOOG follows it with no delay in between; only GOOG's
    request is followed by the 12 s. *)
Lemma rejected_request_is_not_followed_by_delay :
  (fetchMarketData parseFloat provider_rejects ["AAPL"; "GOOG"] w0).1 =
  Normal [ {| symbol := "GOOG"; price := 150; change_percent := 1.5 |} ] ∧
  trace (fetchMarketData parseFloat provider_rejects ["AAPL"; "GOOG"] w0).2 =
  [EvRequest "AAPL"; EvRequest "GOOG"; EvSleep 12000] ∧
  clock (fetchMarketData parseFloat provider_rejects ["AAPL"; "GOOG"] w0).2 =
  (clock w0 + 12000)%Z.
Proof. repeat split. Qed.

(** C4, as stated, fails: GOOG has no stored quote, u1's threshold for it
    is 0, and the first fetch of GOOG notifies u1 of a change of 0.00%. *)
Lemma first_observation_alerts_at_threshold_zero :
  market_data (store w0) !! "GOOG" = None ∧
  thresholds_of "u1" "GOOG" (store w0) = [threshold "u1" "GOOG" 0] ∧
  notifications (store w0) = [] ∧
  notifications (store (handler u1_request w0).2) =
  [ {| n_user_id := "u1"; n_symbol := "AAPL";
       n_message := "AAPL price changed by 5.00%: $100.00 → $105.00";
       n_type := "price_alert" |};
    {| n_user_id := "u1"; n_symbol := "GOOG";
       n_message := "GOOG price changed by 0.00%: $150.00 → $150.00";
       n_type := "price_alert" |} ].
Proof. repeat split. Qed.

(** With u1's threshold for GOOG at 5%, the first fetch of GOOG brings no
    notification for GOOG. *)
Lemma first_observation_no_alert_witness :
  ∃ added,
    notifications (store (handler u1_request w1).2) =
    notifications (store w1) ++ added ∧
    ∀ n, n ∈ added → n_symbol n ≠ "GOOG".
Proof.
  apply (first_observation_no_alert parseFloat toFixed provider getUser None None
           u1_request w1 "u1" ["AAPL"; "MSFT"; "GOOG"] "GOOG").
  - apply u1_reaches_fetch.
  - reflexivity.
  - intros th Hin. vm_compute in Hin.
    apply list_elem_of_singleton in Hin as ->. reflexivity.
Defined.

(** u1's first threshold for AAPL is 5 in [w0] and 5.01 in [w1]. *)
#[warnings="-inexact-float"]
Lemma threshold_boundary_inclusive_witness :
  notifications (store (checkPriceAlerts toFixed "u1" "AAPL" 100 105 w0).2) =
  [ {| n_user_id := "u1"; n_symbol := "AAPL";
       n_message := "AAPL price changed by 5.00%: $100.00 → $105.00";
       n_type := "price_alert" |} ] ∧
  notifications (store (checkPriceAlerts toFixed "u1" "AAPL" 100 105 w1).2) = [].
Proof.
  split.
  - apply (proj1 (proj2 (threshold_boundary_inclusive toFixed "u1" "AAPL" w0
             (threshold "u1" "AAPL" 5) [] eq_refl))).
    reflexivity.
  - apply (proj2 (proj2 (threshold_boundary_inclusive toFixed "u1" "AAPL" w1
             (threshold "u1" "AAPL" five_01) [] eq_refl))).
    reflexivity.
Defined.

(** C6, as stated, fails: called with an old price of 0 and a new price of
    105, the evaluator notifies u1 of an infinite change. *)
Lemma zero_old_price_notifies :
  notifications (store (checkPriceAlerts toFixed "u1" "AAPL" 0 105 w0).2) =
  [ {| n_user_id := "u1"; n_symbol := "AAPL";
       n_message := "AAPL price changed by Infinity%: $0.00 → $105.00";
       n_type := "price_alert" |} ].
Proof. reflexivity. Qed.

(** From 0 to 0 nobody is notified; from 0 to 150 u1 is. *)
Lemma zero_old_price_is_not_guarded_witness :
  notifications (store (checkPriceAlerts toFixed "u1" "AAPL" 0 0 w0).2) = [] ∧
  notifications (store (checkPriceAlerts toFixed "u1" "AAPL" 0 150 w0).2) =
  [ {| n_user_id := "u1"; n_symbol := "AAPL";
       n_message := "AAPL price changed by Infinity%: $0.00 → $150.00";
       n_type := "price_alert" |} ].
Proof.
  split.
  - apply (proj1 (zero_old_price_is_not_guarded toFixed "u1" "AAPL" w0 0 0 eq_refl)).
    by left.
  - apply (proj2 (zero_old_price_is_not_guarded toFixed "u1" "AAPL" w0 150 0 eq_refl)
             (threshold "u1" "AAPL" 5) []); reflexivity.
Defined.

(** C7, as stated, fails: u3 has no portfolio; the answer is the 200
    message, and no audit entry is written. *)
Lemma no_portfolios_no_audit_entry :
  (handler (request "token-u3") w0).1 = Normal (Message "No portfolios found") ∧
  audit_logs (store w0) = [] ∧
  audit_logs (store (handler (request "token-u3") w0).2) = [].
Proof. repeat split. Qed.

(** u1's run writes its one audit entry: three symbols requested, two
    updated. *)
Lemma audit_entry_for_fetching_runs_witness :
  ∃ userId,
    ReachesFetch getUser None None u1_request w0 userId ["AAPL"; "MSFT"; "GOOG"] ∧
    2%nat = length (fetched parseFloat provider ["AAPL"; "MSFT"; "GOOG"]) ∧
    audit_logs (store (handler u1_request w0).2) =
    audit_logs (store w0) ++
    [ {| al_user_id := userId; al_action := "REFRESH_MARKET_DATA";
         al_resource_type := "market_data";
         al_details_symbols := ["AAPL"; "MSFT"; "GOOG"];
         al_details_count := 2; al_status_code := 200 |} ].
Proof.
  exact (audit_entry_for_fetching_runs parseFloat toFixed provider getUser
           None None u1_request w0).
Defined.

(** Three symbols requested, MSFT failing: [updated] is 2 and [symbols]
    lists all three. *)
Lemma response_reports_updates_witness :
  (handler u1_request w0).1 =
  Normal (Success 2 ["AAPL"; "MSFT"; "GOOG"] "Alpha Vantage (Real-time data)"
            "Some symbols could not be updated due to API availability").
Proof.
  apply (response_reports_updates parseFloat toFixed provider getUser None None
           u1_request w0 "u1" ["AAPL"; "MSFT"; "GOOG"]).
  apply u1_reaches_fetch.
Defined.

(** C9, as stated, fails: u2 holds AAPL too, with a threshold of 1% that
    the change of 5% is above; the run u1 asks for evaluates and notifies
    u1 only. *)
Lemma other_owner_is_not_evaluated :
  requested_symbols "u2" (store w0) = ["AAPL"] ∧
  alert_of toFixed "u2" "AAPL" 100 105 (store w0) =
  [ {| n_user_id := "u2"; n_symbol := "AAPL";
       n_message := "AAPL price changed by 5.00%: $100.00 → $105.00";
       n_type := "price_alert" |} ] ∧
  trace (handler u1_request w0).2 =
  [ EvRequest "AAPL"; EvSleep 12000; EvRequest "MSFT"; EvSleep 12000;
    EvRequest "GOOG"; EvSleep 12000;
    EvCheckAlerts "u1" "AAPL" 100 105; EvCheckAlerts "u1" "GOOG" 150 150 ] ∧
  n_user_id <$> notifications (store (handler u1_request w0).2) = ["u1"; "u1"].
Proof. repeat split. Qed.

(** The evaluator calls of u1's run on [w1], all for u1. *)
Lemma alerts_are_for_the_caller_witness :
  trace (handler u1_request w1).2 =
  [ EvRequest "AAPL"; EvSleep 12000; EvRequest "MSFT"; EvSleep 12000;
    EvRequest "GOOG"; EvSleep 12000;
    EvCheckAlerts "u1" "AAPL" 100 105; EvCheckAlerts "u1" "GOOG" 150 150 ] ∧
  ∃ added,
    notifications (store (handler u1_request w1).2) =
    notifications (store w1) ++ added ∧
    ∀ n, n ∈ added → n_user_id n = "u1".
Proof.
  apply (alerts_are_for_the_caller parseFloat toFixed provider getUser None None
           u1_request w1 "u1" ["AAPL"; "MSFT"; "GOOG"]).
  apply u1_reaches_fetch.
Defined.

(** C10, as stated, fails in its last part: GOOG has no stored quote and
    is fetched at a price of 0; the evaluator is called with old = new = 0
    and divides zero by zero. *)
Lemma zero_fetched_price_divides_by_zero :
  market_data (store w0) !! "GOOG" = None ∧
  trace (handler_zero u1_request w0).2 =
  [ EvRequest "AAPL"; EvSleep 12000; EvRequest "MSFT"; EvSleep 12000;
    EvRequest "GOOG"; EvSleep 12000; EvCheckAlerts "u1" "GOOG" 0 0 ] ∧
  PrimFloat.is_nan (changePercent_of 0 0) = true.
Proof. repeat split. Qed.

(** GOOG, without a stored quote and fetched at 0: the evaluator is called
    with 0 and 0 and notifies nobody. *)
Lemma zero_stored_price_is_replaced_witness :
  EvCheckAlerts "u1" "GOOG" 0 0 ∈ trace (handler_zero u1_request w0).2 ∧
  alert_of toFixed "u1" "GOOG" 0 0 (store w0) = [].
Proof.
  destruct (zero_stored_price_is_replaced parseFloat toFixed provider_zero getUser
              None None u1_request w0 "u1" ["AAPL"; "MSFT"; "GOOG"]
              {| symbol := "GOOG"; price := 0; change_percent := 0 |})
    as (Hcall & _ & Hzero).
  - apply u1_reaches_fetch.
  - vm_compute. apply list_elem_of_singleton. reflexivity.
  - split; [exact Hcall|]. apply Hzero. reflexivity.
Defined.

End Checked.

(** ** More properties of the job *)

(** *** Strings *)





(** [(c + '%').replace('%', '')] is [c] when [c] has no percent sign. *)
Lemma replace_trailing_percent c :
  "%"%char ∉ list_ascii_of_string c → JS.replace "%" "" (c +:+ "%") = c.
Proof.
  induction c as [|a c IH]; intros Hno; [reflexivity|].
  change (String a c +:+ "%") with (String a (c +:+ "%")).
  cbn [JS.replace String.prefix list_ascii_of_string] in *.
  apply not_elem_of_cons in Hno as [Ha Hno].
  destruct (Ascii.ascii_dec "%" a) as [Heq|_]; [by destruct Ha|].
  by rewrite IH.
Qed.

(** *** Lists *)

Lemma filter_all {A} (P : A → Prop) `{!∀ x, Decision (P x)} (l : list A) :
  (∀ x, x ∈ l → P x) → filter P l = l.
Proof.
  induction l as [|x l IH]; intros Hall; [reflexivity|].
  rewrite filter_cons_True by (apply Hall, elem_of_cons; by left).
  rewrite IH; [done|]. intros y Hy. apply Hall, elem_of_cons. by right.
Qed.

Lemma spread_set_from_spec l : ∀ seen,
  NoDup (JS.spread_set_from seen l) ∧
  ∀ x, x ∈ JS.spread_set_from seen l ↔ x ∈ l ∧ x ∉ seen.
Proof.
  induction l as [|y l IH]; intros seen; cbn [JS.spread_set_from].
  - split; [constructor|]. intros x. rewrite elem_of_nil. tauto.
  - case_bool_decide as Hy.
    + destruct (IH seen) as [Hnd Hin]. split; [done|].
      intros x. rewrite Hin, elem_of_cons. intuition congruence.
    + destruct (IH (y :: seen)) as [Hnd Hin]. split.
      * constructor; [|done]. rewrite Hin, elem_of_cons. tauto.
      * intros x. rewrite elem_of_cons, Hin, !elem_of_cons.
        destruct (decide (x = y)); intuition congruence.
Qed.

Lemma filter_none {A} (P : A → Prop) `{!∀ x, Decision (P x)} (l : list A) :
  (∀ x, x ∈ l → ¬ P x) → filter P l = [].
Proof.
  induction l as [|x l IH]; intros Hno; [reflexivity|].
  rewrite filter_cons_False by (apply Hno, elem_of_cons; by left).
  apply IH. intros y Hy. apply Hno, elem_of_cons. by right.
Qed.


Lemma flat_map_length_le {A B} (f : A → list B) (l : list A) :
  (∀ x, (length (f x) ≤ 1)%nat) → (length (flat_map f l) ≤ length l)%nat.
Proof.
  intros Hf. induction l as [|x l IH]; [cbn; lia|].
  cbn. rewrite length_app. specialize (Hf x). lia.
Qed.

Lemma omap_length_full {A B} (f : A → option B) (l : list A) :
  (length (omap f l) ≤ length l)%nat ∧
  (length (omap f l) = length l ↔ ∀ x, x ∈ l → is_Some (f x)).
Proof.
  induction l as [|x l [IHle IHeq]].
  - split; [done|]. split; [|done]. intros _ x []%elem_of_nil.
  - cbn [omap list_omap]. destruct (f x) as [y|] eqn:Hx; cbn [length].
    + split; [lia|]. split.
      * intros Hlen y' [->|Hy']%elem_of_cons; [by rewrite Hx|].
        apply IHeq; [lia|done].
      * intros Hall. f_equal. apply IHeq. intros y' Hy'.
        apply Hall, elem_of_cons. by right.
    + split; [lia|]. split; [lia|]. intros Hall.
      destruct (Hall x) as [y Hy]; [apply elem_of_cons; by left|congruence].
Qed.

(** *** Numbers *)

(** A change from or to [NaN] is [NaN]: it reaches no threshold. *)
Lemma change_nan o n t :
  PrimFloat.is_nan n = true ∨ PrimFloat.is_nan o = true →
  JS.ge (PrimFloat.abs (Refresh.changePercent_of o n)) t = false.
Proof.
  rewrite !is_nan_spec. intros Hnan. to_spec.
  destruct Hnan as [-> | ->];
    [destruct (Prim2SF o) as [[]|[]| |[] m e]
    |destruct (Prim2SF n) as [[]|[]| |[] m e]];
    destruct (Prim2SF t) as [[]|[]| |[] tm te]; reflexivity.
Qed.


Section MoreJobProperties.

Variable parseFloat : string → float.
Variable toFixed : float → nat → string.
Variable provider : string → FetchOutcome.
Variable getUser : string → option string.
Variable portfoliosError : option string.
Variable transactionsError : option string.

Import Refresh.

Local Abbreviation fetchMarketData := (Refresh.fetchMarketData parseFloat provider).
Local Abbreviation successfully_parsed := (Refresh.successfully_parsed parseFloat provider).
Local Abbreviation completes := (Refresh.completes provider).
Local Abbreviation fetch_events := (Refresh.fetch_events provider).
Local Abbreviation fetched := (Refresh.fetched parseFloat provider).
Local Abbreviation checkPriceAlerts := (Refresh.checkPriceAlerts toFixed).
Local Abbreviation alert_of := (Refresh.alert_of toFixed).
Local Abbreviation caller_of := (Refresh.caller_of getUser).
Local Abbreviation ReachesFetch :=
  (Refresh.ReachesFetch getUser portfoliosError transactionsError).
Local Abbreviation after_run := (Refresh.after_run parseFloat toFixed provider).
Local Abbreviation handler :=
  (Refresh.handler parseFloat toFixed provider getUser portfoliosError
     transactionsError).

Local Abbreviation reaches_or_not :=
  (classic_reaches getUser portfoliosError transactionsError).
Local Abbreviation run_of :=
  (handler_reaches_fetch parseFloat toFixed provider getUser portfoliosError
     transactionsError).
Local Abbreviation other_run :=
  (handler_otherwise parseFloat toFixed provider getUser portfoliosError
     transactionsError).

(** *** The answers of the handler *)

(** A run either reaches the fetch phase and ends in [after_run], or
    leaves the world as it was. *)
Lemma handler_cases req w :
  (∃ userId uniqueSymbols,
     ReachesFetch req w userId uniqueSymbols ∧
     handler req w = (Normal (success_response parseFloat provider uniqueSymbols),
                      after_run userId uniqueSymbols w)) ∨
  (∃ r, handler req w = (Normal r, w)).
Proof.
  destruct (reaches_or_not req w) as [(u & syms & Hr)|Hno].
  - left. exists u, syms. split; [done|]. by apply run_of.
  - right. destruct (other_run _ _ Hno) as (r & Hr & _). eauto.
Qed.

(** X1: the handler never throws: whatever the request, the store, the
    provider and the read errors, it completes with a response. *)
Theorem handler_never_throws req w :
  ∃ r, (handler req w).1 = Normal r.
Proof.
  destruct (handler_cases req w) as [(u & syms & _ & ->)|(r & ->)]; by eexists.
Qed.

(** Past the preflight test and the identification of the caller. *)
Ltac enter_handler Hm Hc :=
  unfold Refresh.handler;
  apply String.eqb_neq in Hm; rewrite Hm;
  unfold Refresh.caller_of in Hc;
  unfold select_portfolios, select_transactions;
  destruct (authorization _) as [h|]; [|try discriminate];
  [destruct (JS.truthy_string h); [|try discriminate]|..];
  cbv [mbind mret Async_bind Async_ret try_catch throw read];
  rewrite ?Hc.

(** X2: a request (other than the preflight) whose caller cannot be
    identified is answered with the 500 body: "No authorization header"
    when the header is missing or empty, "Unauthorized" when [getUser]
    rejects the token.  Nothing is requested from the provider and nothing
    is written. *)
Theorem unidentified_caller_is_refused req w :
  method req ≠ "OPTIONS" →
  caller_of req = None →
  handler req w =
  (Normal (Failure match authorization req with
                   | Some h => if JS.truthy_string h then "Unauthorized"
                               else "No authorization header"
                   | None => "No authorization header"
                   end), w).
Proof. intros Hm Hc. enter_handler Hm Hc; reflexivity. Qed.

(** X3: the error of the portfolios read, and the error of the
    transactions read when the caller has a portfolio, is answered as the
    500 body with the error's message; the world is left as it was (no
    provider request, no audit entry). *)
Theorem read_error_is_answered req w userId e :
  method req ≠ "OPTIONS" →
  caller_of req = Some userId →
  portfoliosError = Some e ∨
  (portfoliosError = None ∧ portfolios_of userId (store w) ≠ [] ∧
   transactionsError = Some e) →
  handler req w = (Normal (Failure e), w).
Proof.
  intros Hm Hc Herr. enter_handler Hm Hc.
  destruct Herr as [->|(-> & Hp & ->)]; [reflexivity|].
  cbv [mbind mret Async_bind Async_ret try_catch throw read].
  unfold portfolios_of in Hp.
  by destruct (filter _ (portfolios (store w))).
Qed.

(** X4: an identified caller without a portfolio is answered "No
    portfolios found" (the transactions are then not read at all), and
    one whose portfolios hold no transaction "No symbols to update"; both
    with status 200, no provider request and no write. *)
Theorem nothing_to_update_answers req w userId :
  method req ≠ "OPTIONS" →
  caller_of req = Some userId →
  portfoliosError = None →
  (portfolios_of userId (store w) = [] →
   handler req w = (Normal (Message "No portfolios found"), w)) ∧
  (portfolios_of userId (store w) ≠ [] →
   transactionsError = None →
   requested_symbols userId (store w) = [] →
   handler req w = (Normal (Message "No symbols to update"), w)).
Proof.
  intros Hm Hc Hpe. enter_handler Hm Hc. rewrite Hpe.
  cbv [mbind mret Async_bind Async_ret try_catch throw read].
  unfold requested_symbols, portfolios_of. split.
  - by intros ->.
  - intros Hp -> Hs.
    destruct (filter _ (portfolios (store w))) as [|p ps]; [done|].
    cbv [mbind mret Async_bind Async_ret try_catch throw read].
    by rewrite Hs.
Qed.


(** *** The fetcher's requests and pace *)

Lemma requests_of_app tr1 tr2 :
  requests_of (tr1 ++ tr2) = requests_of tr1 ++ requests_of tr2.
Proof. apply omap_app. Qed.

Lemma requests_of_fetch_events symbols :
  requests_of (flat_map fetch_events symbols) = symbols.
Proof.
  induction symbols as [|sym rest IH]; [reflexivity|].
  cbn [flat_map]. rewrite requests_of_app, IH.
  unfold Refresh.fetch_events. by destruct (completes sym).
Qed.

Lemma requests_of_no_request {A} (g : A → Event) (l : list A) :
  (∀ x, match g x with EvRequest _ => False | _ => True end) →
  requests_of (g <$> l) = [].
Proof.
  intros Hg. induction l as [|x l IH]; [reflexivity|].
  cbn. specialize (Hg x). by destruct (g x).
Qed.

(** X6: the fetcher asks the provider once per element of its input, in
    input order, repeated symbols and failing symbols included; it does
    not touch the store. *)
Theorem fetchMarketData_requests_each_input symbols w :
  requests_of (trace (fetchMarketData symbols w).2) =
  requests_of (trace w) ++ symbols ∧
  store (fetchMarketData symbols w).2 = store w.
Proof.
  rewrite fetchMarketData_spec. cbn.
  by rewrite requests_of_app, requests_of_fetch_events.
Qed.

Lemma fetch_delay_sum symbols :
  foldr (λ sym acc, Refresh.fetch_delay provider sym + acc) 0 symbols =
  12000 * Z.of_nat (length (filter (λ sym, completes sym = true) symbols)).
Proof.
  induction symbols as [|sym rest IH]; [reflexivity|].
  cbn [foldr]. rewrite IH, filter_cons. unfold Refresh.fetch_delay.
  destruct (completes sym); [|by destruct (decide _)].
  destruct (decide _); [|done]. cbn [length]. lia.
Qed.

(** X7: a fetch suspends for 12 s once per symbol whose round runs to its
    end: 12 s times the number of symbols when no request throws, and
    never more than that. *)
Theorem fetchMarketData_duration symbols w :
  let elapsed := clock (fetchMarketData symbols w).2 - clock w in
  elapsed =
  12000 * Z.of_nat (length (filter (λ sym, completes sym = true) symbols)) ∧
  0 ≤ elapsed ≤ 12000 * Z.of_nat (length symbols) ∧
  ((∀ sym, sym ∈ symbols → completes sym = true) →
   elapsed = 12000 * Z.of_nat (length symbols)).
Proof.
  cbn zeta. rewrite fetchMarketData_spec. cbn. rewrite fetch_delay_sum.
  pose proof (length_filter (λ sym, completes sym = true) symbols) as Hle.
  split; [lia|]. split; [lia|].
  intros Hall. rewrite filter_all; [lia|done].
Qed.

(** X8: a quote with a non-empty price string and a change string that is
    digits followed by its one percent sign is returned with both parsed
    by [parseFloat], the sign taken off. *)
Theorem fetchMarketData_parses_quote sym price05 c w :
  provider sym =
  Json (Some {| gq_price := Some price05; gq_change_percent := Some (c +:+ "%") |}) →
  price05 ≠ "" →
  "%"%char ∉ list_ascii_of_string c →
  (fetchMarketData [sym] w).1 =
  Normal [{| symbol := sym; price := parseFloat price05;
             change_percent := parseFloat c |}].
Proof.
  intros Hp Hne Hno. rewrite fetchMarketData_spec. cbn.
  unfold Refresh.fetched, Refresh.successfully_parsed. cbn. rewrite Hp. cbn.
  destruct price05; [done|]. cbn. by rewrite replace_trailing_percent.
Qed.

(** *** The symbols of a run *)

(** X9: a run that reaches the fetch phase asks the provider once for
    each distinct symbol of the transactions in the caller's portfolios,
    and for no other symbol. *)
Theorem run_requests_each_symbol_once req w userId uniqueSymbols :
  ReachesFetch req w userId uniqueSymbols →
  requests_of (trace (handler req w).2) = requests_of (trace w) ++ uniqueSymbols ∧
  NoDup uniqueSymbols ∧
  ∀ sym, sym ∈ uniqueSymbols ↔
         ∃ t p, t ∈ transactions (store w) ∧ t_symbol t = sym ∧
                p ∈ portfolios (store w) ∧ p_owner_id p = userId ∧
                t_portfolio_id t = p_id p.
Proof.
  intros Hr. split; [|split].
  - rewrite (run_trace parseFloat toFixed provider _ _ _ _ _ _ _ Hr).
    rewrite !requests_of_app, requests_of_fetch_events.
    rewrite requests_of_no_request by done.
    by rewrite app_nil_r.
  - destruct Hr as (_ & _ & _ & _ & _ & -> & _).
    apply (spread_set_from_spec _ []).
  - destruct Hr as (_ & _ & _ & _ & _ & -> & _). intros sym.
    unfold requested_symbols, JS.spread_set, portfolios_of.
    rewrite (proj2 (spread_set_from_spec _ [])), list_elem_of_fmap. split.
    + intros [(t & -> & [Hin Ht]%list_elem_of_filter) _].
      apply list_elem_of_fmap in Hin as (p & Hp & [Ho Hpin]%list_elem_of_filter).
      eauto 10.
    + intros (t & p & Ht & <- & Hp & Ho & Hid). split; [|apply not_elem_of_nil].
      exists t. split; [done|]. apply list_elem_of_filter. split; [|done].
      rewrite Hid. apply list_elem_of_fmap_2, list_elem_of_filter. done.
Qed.

(** X10: a run that reaches the fetch phase appends one history row per
    fetched quote, in fetch order, with the quote's price as both [price]
    and [close_price]; the rows that were there stay in front. *)
Theorem run_appends_history req w userId uniqueSymbols :
  ReachesFetch req w userId uniqueSymbols →
  let w' := (handler req w).2 in
  historical_prices (store w') =
  historical_prices (store w) ++
  ((λ d, {| hp_symbol := symbol d; hp_price := price d;
            hp_close_price := price d; hp_recorded_at := clock w' |})
   <$> omap successfully_parsed uniqueSymbols).
Proof. intros Hr. cbn zeta. by rewrite (run_of _ _ _ _ Hr). Qed.

(** *** The tables after a run *)

(** The row of a symbol after the upserts of the fetched quotes. *)
Lemma lookup_fetched_upserts now uniqueSymbols (md : gmap string MarketRow) S :
  foldl (λ md d, <[symbol d := upserted_row now d]> md) md (fetched uniqueSymbols)
    !! S =
  match successfully_parsed S with
  | Some q => if bool_decide (S ∈ uniqueSymbols) then Some (upserted_row now q)
              else md !! S
  | None => md !! S
  end.
Proof.
  destruct (successfully_parsed S) as [q|] eqn:Hq.
  - pose proof (successfully_parsed_symbol _ _ _ _ Hq) as Hs.
    case_bool_decide as Hin.
    + apply (lookup_upserts_eq _ _ S q); [|done|].
      * apply elem_of_fetched. by rewrite Hs.
      * intros d [_ Hd]%elem_of_fetched Hds. rewrite Hds in Hd. congruence.
    + apply lookup_upserts_ne. intros d [Hd _]%elem_of_fetched Hds.
      by rewrite Hds in Hd.
  - apply lookup_upserts_ne. intros d [_ Hd]%elem_of_fetched Hds.
    rewrite Hds in Hd. congruence.
Qed.

(** X11: the job never deletes a quote: a symbol that has a [market_data]
    row before a run has one after it, either the same row or one with
    the price and change of the quote fetched for it. *)
Theorem quote_rows_are_kept req w S r :
  market_data (store w) !! S = Some r →
  ∃ r', market_data (store (handler req w).2) !! S = Some r' ∧
        (r' = r ∨
         ∃ q, successfully_parsed S = Some q ∧
              md_price r' = price q ∧ md_change_percent r' = change_percent q).
Proof.
  intros Hrow.
  destruct (handler_cases req w) as [(u & syms & _ & ->)|(r0 & ->)]; [|eauto].
  cbn. rewrite lookup_fetched_upserts.
  destruct (successfully_parsed S) as [q|]; [|eauto].
  case_bool_decide; eauto 8.
Qed.

(** X12: whatever the request, a run leaves the tables it only reads as
    they were: portfolios, transactions and alert thresholds. *)
Theorem run_keeps_input_tables req w :
  let s' := store (handler req w).2 in
  portfolios s' = portfolios (store w) ∧
  transactions s' = transactions (store w) ∧
  alert_thresholds s' = alert_thresholds (store w).
Proof.
  cbn zeta.
  by destruct (handler_cases req w) as [(u & syms & _ & ->)|(r0 & ->)].
Qed.

(** X13: whatever the request, a run only appends to the history, the
    notifications and the audit log: the rows that were there are kept,
    in place, in front of the new ones. *)
Theorem run_only_appends req w :
  let s' := store (handler req w).2 in
  historical_prices (store w) `prefix_of` historical_prices s' ∧
  notifications (store w) `prefix_of` notifications s' ∧
  audit_logs (store w) `prefix_of` audit_logs s'.
Proof.
  cbn zeta.
  destruct (handler_cases req w) as [(u & syms & _ & ->)|(r0 & ->)]; cbn.
  - repeat split; by eexists.
  - done.
Qed.

(** *** The notifications of a run *)

Local Abbreviation alerts_of userId uniqueSymbols w :=
  (λ d, alert_of userId (symbol d)
          (oldPrice_of (currentPrices_of uniqueSymbols (store w)) d) (price d)
          (store w)).

Local Abbreviation notifications_of_run :=
  (run_notifications parseFloat toFixed provider getUser portfoliosError
     transactionsError).

(** X14: when the caller has no threshold row for a symbol, a run adds no
    notification for that symbol, whatever its price does. *)
Theorem no_threshold_no_alert req w userId uniqueSymbols S :
  ReachesFetch req w userId uniqueSymbols →
  thresholds_of userId S (store w) = [] →
  ∃ added,
    notifications (store (handler req w).2) = notifications (store w) ++ added ∧
    ∀ n, n ∈ added → n_symbol n ≠ S.
Proof.
  intros Hr Hnone. eexists. split; [by apply notifications_of_run|].
  intros n (d & Hd & Hn)%elem_of_flat_map HS.
  apply elem_of_alert_of in Hn as (_ & Hsym & th & ths & Hth & _).
  rewrite HS in Hsym. subst S. congruence.
Qed.

Lemma fetched_symbols uniqueSymbols :
  symbol <$> fetched uniqueSymbols =
  filter (λ sym, is_Some (successfully_parsed sym)) uniqueSymbols.
Proof.
  unfold Refresh.fetched.
  induction uniqueSymbols as [|sym rest IH]; [reflexivity|].
  cbn [omap list_omap]. rewrite filter_cons.
  destruct (successfully_parsed sym) as [d|] eqn:Hd.
  - rewrite decide_True by done. cbn [fmap list_fmap].
    rewrite (successfully_parsed_symbol _ _ _ _ Hd). f_equal. exact IH.
  - rewrite decide_False by (by intros [? ?]). exact IH.
Qed.

Lemma alert_of_length userId sym o p s : (length (alert_of userId sym o p s) ≤ 1)%nat.
Proof.
  unfold Refresh.alert_of. destruct (thresholds_of _ _ _); [cbn; lia|].
  destruct (JS.ge _ _); cbn; lia.
Qed.

Lemma alerts_once_per_symbol (f : MarketDataUpdate → list Notification)
    (ds : list MarketDataUpdate) S :
  (∀ d n, n ∈ f d → n_symbol n = symbol d) →
  (∀ d, (length (f d) ≤ 1)%nat) →
  NoDup (symbol <$> ds) →
  (length (filter (λ n, n_symbol n = S) (flat_map f ds)) ≤ 1)%nat.
Proof.
  intros Hsym Hlen. induction ds as [|d ds IH]; intros Hnd; [cbn; lia|].
  apply NoDup_cons in Hnd as [Hd Hnd]. cbn [flat_map].
  rewrite filter_app, length_app.
  destruct (decide (symbol d = S)) as [HS|HS].
  - rewrite (filter_none _ (flat_map f ds)).
    + pose proof (length_filter (λ n, n_symbol n = S) (f d)).
      specialize (Hlen d). cbn [length]. lia.
    + intros n (d' & Hd' & Hn)%elem_of_flat_map Hn'.
      apply Hd. rewrite HS, <- Hn', (Hsym _ _ Hn).
      by apply list_elem_of_fmap_2.
  - rewrite (filter_none _ (f d)).
    + by apply IH.
    + intros n Hn Hn'. apply HS. by rewrite <- (Hsym _ _ Hn).
Qed.

(** X15: a run adds at most one notification per symbol, and no more
    notifications than it fetched quotes. *)
Theorem run_alerts_once_per_symbol req w userId uniqueSymbols S :
  ReachesFetch req w userId uniqueSymbols →
  ∃ added,
    notifications (store (handler req w).2) = notifications (store w) ++ added ∧
    (length (filter (λ n, n_symbol n = S) added) ≤ 1)%nat ∧
    (length added ≤ length (omap successfully_parsed uniqueSymbols))%nat.
Proof.
  intros Hr. eexists. split; [by apply notifications_of_run|]. split.
  - apply alerts_once_per_symbol.
    + intros d n Hn. by apply elem_of_alert_of in Hn as (_ & ? & _).
    + intros d. apply alert_of_length.
    + rewrite fetched_symbols. apply NoDup_filter.
      destruct Hr as (_ & _ & _ & _ & _ & -> & _).
      apply (spread_set_from_spec _ []).
  - apply flat_map_length_le. intros d. apply alert_of_length.
Qed.

(** X16: in the success body, [updated] never exceeds the number of
    requested symbols, and the note reads "All symbols updated
    successfully" exactly when every requested symbol brought a quote. *)
Theorem success_note_is_accurate req w userId uniqueSymbols :
  ReachesFetch req w userId uniqueSymbols →
  ∃ updated note,
    (handler req w).1 =
    Normal (Success updated uniqueSymbols "Alpha Vantage (Real-time data)" note) ∧
    (updated ≤ length uniqueSymbols)%nat ∧
    (note = "All symbols updated successfully" ↔
     ∀ sym, sym ∈ uniqueSymbols → is_Some (successfully_parsed sym)).
Proof.
  intros Hr. rewrite (run_of _ _ _ _ Hr). do 2 eexists. split; [reflexivity|].
  unfold Refresh.fetched.
  destruct (omap_length_full successfully_parsed uniqueSymbols) as [Hle Heq].
  split; [done|]. rewrite <- Heq. unfold note_of.
  destruct (Nat.ltb_spec (length (omap successfully_parsed uniqueSymbols))
              (length uniqueSymbols)); split; try done; lia.
Qed.

(** X17: the alert evaluator is given the price stored before the run, when
    that price is a non-zero number, although the row holds the fetched
    price by the time the evaluator is called. *)
Theorem stored_price_is_the_old_price req w userId uniqueSymbols d r :
  ReachesFetch req w userId uniqueSymbols →
  d ∈ omap successfully_parsed uniqueSymbols →
  market_data (store w) !! symbol d = Some r →
  JS.truthy (md_price r) = true →
  let w' := (handler req w).2 in
  EvCheckAlerts userId (symbol d) (md_price r) (price d) ∈ trace w' ∧
  md_price <$> market_data (store w') !! symbol d = Some (price d).
Proof.
  intros Hr Hd Hrow Htruthy. cbn zeta.
  pose proof (proj1 (elem_of_fetched _ _ _ _) Hd) as [Hin Hq]. split.
  - rewrite (run_trace parseFloat toFixed provider _ _ _ _ _ _ _ Hr).
    rewrite !elem_of_app. right. right. apply list_elem_of_fmap. exists d.
    split; [|done]. f_equal. unfold oldPrice_of.
    rewrite currentPrices_lookup, bool_decide_eq_true_2, Hrow by done.
    cbn. by rewrite Htruthy.
  - rewrite (run_of _ _ _ _ Hr). cbn.
    rewrite lookup_fetched_upserts, Hq, bool_decide_eq_true_2 by done.
    reflexivity.
Qed.

(** X18: a quote whose price string does not parse to a number ([NaN])
    brings no notification for its symbol, whatever the thresholds. *)
Theorem unparsable_price_notifies_nobody req w userId uniqueSymbols S q :
  ReachesFetch req w userId uniqueSymbols →
  successfully_parsed S = Some q →
  PrimFloat.is_nan (price q) = true →
  ∃ added,
    notifications (store (handler req w).2) = notifications (store w) ++ added ∧
    ∀ n, n ∈ added → n_symbol n ≠ S.
Proof.
  intros Hr Hq Hnan. eexists. split; [by apply notifications_of_run|].
  intros n (d & [_ Hd]%elem_of_fetched & Hn)%elem_of_flat_map HS.
  apply elem_of_alert_of in Hn as (_ & Hsym & th & ths & _ & Hge).
  rewrite HS in Hsym. subst S. assert (d = q) as -> by congruence.
  rewrite change_nan in Hge; [done|by left].
Qed.


End MoreJobProperties.

(** ** More sample runs, checked *)

Module CheckedMore.

Import Refresh Scenario.

Local Open Scope float_scope.
Local Open Scope string_scope.
Local Open Scope list_scope.

Local Abbreviation u1_request := (request "token-u1").
Local Abbreviation u1_symbols := ["AAPL"; "MSFT"; "GOOG"].


(** A request without the header, and one with a token nobody has. *)
Lemma unidentified_caller_is_refused_witness :
  handler {| method := "POST"; authorization := None |} w0 =
  (Normal (Failure "No authorization header"), w0) ∧
  handler (request "stale-token") w0 = (Normal (Failure "Unauthorized"), w0).
Proof.
  split.
  - by apply (unidentified_caller_is_refused parseFloat toFixed provider getUser
                None None {| method := "POST"; authorization := None |} w0).
  - by apply (unidentified_caller_is_refused parseFloat toFixed provider getUser
                None None (request "stale-token") w0).
Defined.

(** The portfolios read fails; the transactions read fails. *)
Lemma read_error_is_answered_witness :
  Refresh.handler parseFloat toFixed provider getUser (Some "permission denied")
    None u1_request w0 = (Normal (Failure "permission denied"), w0) ∧
  Refresh.handler parseFloat toFixed provider getUser None (Some "timeout")
    u1_request w0 = (Normal (Failure "timeout"), w0).
Proof.
  split.
  - apply (read_error_is_answered parseFloat toFixed provider getUser
             (Some "permission denied") None u1_request w0 "u1");
      first [done|by left].
  - apply (read_error_is_answered parseFloat toFixed provider getUser
             None (Some "timeout") u1_request w0 "u1");
      first [done|right; repeat split; done].
Defined.

(** u3 without a portfolio, and u3 with a portfolio without transactions. *)
Lemma nothing_to_update_answers_witness :
  handler (request "token-u3") w0 = (Normal (Message "No portfolios found"), w0) ∧
  handler (request "token-u3") Scenario2.w_empty_portfolio =
  (Normal (Message "No symbols to update"), Scenario2.w_empty_portfolio).
Proof.
  split.
  - by apply (nothing_to_update_answers parseFloat toFixed provider getUser
                None None (request "token-u3") w0 "u3").
  - apply (nothing_to_update_answers parseFloat toFixed provider getUser
             None None (request "token-u3") Scenario2.w_empty_portfolio "u3");
      done.
Defined.

(** GOOG's quote, "150.00" and "1.5000%". *)
Lemma fetchMarketData_parses_quote_witness :
  (fetchMarketData parseFloat provider ["GOOG"] w0).1 =
  Normal [ {| symbol := "GOOG"; price := 150; change_percent := 1.5 |} ].
Proof.
  apply (fetchMarketData_parses_quote parseFloat provider "GOOG" "150.00" "1.5000" w0).
  - reflexivity.
  - discriminate.
  - apply (bool_decide_unpack _). vm_compute. exact I.
Defined.

(** u1's transactions name AAPL twice; it is requested once. *)
Lemma run_requests_each_symbol_once_witness :
  requests_of (trace (handler u1_request w0).2) = ["AAPL"; "MSFT"; "GOOG"] ∧
  NoDup u1_symbols.
Proof.
  destruct (run_requests_each_symbol_once parseFloat toFixed provider getUser
              None None u1_request w0 "u1" u1_symbols (Checked.u1_reaches_fetch _))
    as (Hreq & Hnd & _).
  split; [exact Hreq|exact Hnd].
Defined.

(** The two history rows of u1's run. *)
Lemma run_appends_history_witness :
  historical_prices (store (handler u1_request w0).2) =
  [ {| hp_symbol := "AAPL"; hp_price := 105; hp_close_price := 105;
       hp_recorded_at := 37000 |};
    {| hp_symbol := "GOOG"; hp_price := 150; hp_close_price := 150;
       hp_recorded_at := 37000 |} ].
Proof.
  exact (run_appends_history parseFloat toFixed provider getUser None None
           u1_request w0 "u1" u1_symbols (Checked.u1_reaches_fetch _)).
Defined.

(** MSFT's row, whose fetch brings nothing, is still there after the run. *)
Lemma quote_rows_are_kept_witness :
  ∃ r', market_data (store (handler u1_request w0).2) !! "MSFT" = Some r' ∧
        (r' = {| md_price := 300; md_change_percent := 0.5; md_updated_at := 0 |} ∨
         ∃ q, successfully_parsed parseFloat provider "MSFT" = Some q ∧
              md_price r' = price q ∧ md_change_percent r' = change_percent q).
Proof.
  exact (quote_rows_are_kept parseFloat toFixed provider getUser None None
           u1_request w0 "MSFT" _ eq_refl).
Defined.

(** With a threshold for AAPL only, GOOG notifies nobody. *)
Lemma no_threshold_no_alert_witness :
  ∃ added,
    notifications (store (handler u1_request (world [threshold "u1" "AAPL" 5])).2) =
    [] ++ added ∧
    ∀ n, n ∈ added → n_symbol n ≠ "GOOG".
Proof.
  exact (no_threshold_no_alert parseFloat toFixed provider getUser None None
           u1_request (world [threshold "u1" "AAPL" 5]) "u1" u1_symbols "GOOG"
           (Checked.u1_reaches_fetch _) eq_refl).
Defined.

(** u1's run on [w0] notifies once about AAPL. *)
Lemma run_alerts_once_per_symbol_witness :
  ∃ added,
    notifications (store (handler u1_request w0).2) = [] ++ added ∧
    (length (filter (λ n, n_symbol n = "AAPL") added) ≤ 1)%nat ∧
    (length added ≤ 2)%nat.
Proof.
  exact (run_alerts_once_per_symbol parseFloat toFixed provider getUser None None
           u1_request w0 "u1" u1_symbols "AAPL" (Checked.u1_reaches_fetch _)).
Defined.

(** MSFT brought no quote: the note is not the all-updated one. *)
Lemma success_note_is_accurate_witness :
  ∃ updated note,
    (handler u1_request w0).1 =
    Normal (Success updated u1_symbols "Alpha Vantage (Real-time data)" note) ∧
    (updated ≤ 3)%nat ∧
    (note = "All symbols updated successfully" ↔
     ∀ sym, sym ∈ u1_symbols → is_Some (successfully_parsed parseFloat provider sym)).
Proof.
  exact (success_note_is_accurate parseFloat toFixed provider getUser None None
           u1_request w0 "u1" u1_symbols (Checked.u1_reaches_fetch _)).
Defined.

(** AAPL was stored at 100 and is fetched at 105. *)
Lemma stored_price_is_the_old_price_witness :
  EvCheckAlerts "u1" "AAPL" 100 105 ∈ trace (handler u1_request w0).2 ∧
  md_price <$> market_data (store (handler u1_request w0).2) !! "AAPL" = Some 105.
Proof.
  apply (stored_price_is_the_old_price parseFloat toFixed provider getUser None None
           u1_request w0 "u1" u1_symbols
           {| symbol := "AAPL"; price := 105; change_percent := 5 |}
           {| md_price := 100; md_change_percent := 0; md_updated_at := 0 |}).
  - apply Checked.u1_reaches_fetch.
  - vm_compute. apply elem_of_cons. by left.
  - reflexivity.
  - reflexivity.
Defined.

(** AAPL's price string is "n/a": stored at 100, thresholds in place, and
    nobody is notified about AAPL. *)
Lemma unparsable_price_notifies_nobody_witness :
  ∃ added,
    notifications
      (store (Refresh.handler parseFloat toFixed Scenario2.provider_garbled getUser
                None None u1_request w0).2) = [] ++ added ∧
    ∀ n, n ∈ added → n_symbol n ≠ "AAPL".
Proof.
  apply (unparsable_price_notifies_nobody parseFloat toFixed
           Scenario2.provider_garbled getUser None None u1_request w0 "u1"
           u1_symbols "AAPL"
           {| symbol := "AAPL"; price := nan; change_percent := nan |}).
  - apply Checked.u1_reaches_fetch.
  - reflexivity.
  - reflexivity.
Defined.


End CheckedMore.
